(** * VibeFit tracker: state store, entry factory and media-URL normalizer

    A shallow embedding of [src/index.tsx] and [public/sw.js].

    JavaScript strings are modelled as Rocq [string]s holding the UTF-8
    bytes of the text; objects used as dictionaries ([Record<string, _>])
    are [gmap string _]; the calls that read the environment ([Date.now],
    [Math.random], [crypto.randomUUID]) are threaded through a small
    state monad over a [World] of recorded readings. *)

From Stdlib Require Import ZArith NArith Strings.String Strings.Ascii Lists.List Bool Lia.
From Stdlib Require Import DecimalString DecimalNat DecimalN.
From stdpp Require Import base option list gmap strings.

Local Open Scope string_scope.

(** ** JavaScript string primitives *)

Module Str.

Definition code (c : ascii) : N := N_of_ascii c.

Definition isEmpty (s : string) : bool :=
  match s with EmptyString => true | String _ _ => false end.

(** [s.startsWith(p)] *)
Definition startsWith (p s : string) : bool := String.prefix p s.

(** [s.includes(needle)] *)
Fixpoint includes (needle s : string) : bool :=
  String.prefix needle s ||
  match s with
  | EmptyString => false
  | String _ s' => includes needle s'
  end.

Definition isUpper (c : ascii) : bool := (65 <=? code c)%N && (code c <=? 90)%N.
Definition isLower (c : ascii) : bool := (97 <=? code c)%N && (code c <=? 122)%N.
Definition isDigit (c : ascii) : bool := (48 <=? code c)%N && (code c <=? 57)%N.
Definition isAlnum (c : ascii) : bool := isUpper c || isLower c || isDigit c.

(** Printable ASCII other than the space. *)
Definition isGraphic (c : ascii) : bool := (33 <=? code c)%N && (code c <=? 126)%N.

(** ASCII lower-casing of one byte and of a string. *)
Definition lowerChar (c : ascii) : ascii :=
  if isUpper c then ascii_of_N (code c + 32) else c.

Fixpoint toLowerCase (s : string) : string :=
  match s with
  | EmptyString => EmptyString
  | String c s' => String (lowerChar c) (toLowerCase s')
  end.

Fixpoint forallb (p : ascii -> bool) (s : string) : bool :=
  match s with
  | EmptyString => true
  | String c s' => p c && forallb p s'
  end.

(** Membership of a byte in a set of bytes written as a string. *)
Fixpoint mem (c : ascii) (set : string) : bool :=
  match set with
  | EmptyString => false
  | String d set' => Ascii.eqb c d || mem c set'
  end.

Fixpoint drop (n : nat) (s : string) : string :=
  match n, s with
  | S n', String _ s' => drop n' s'
  | _, _ => s
  end.

(** [break stop s] cuts [s] before its first byte satisfying [stop]. *)
Fixpoint break (stop : ascii -> bool) (s : string) : string * string :=
  match s with
  | EmptyString => (EmptyString, EmptyString)
  | String c s' =>
      if stop c then (EmptyString, s)
      else let '(a, b) := break stop s' in (String c a, b)
  end.

(** [s.split(sep)] for a one-byte separator: always at least one piece. *)
Fixpoint split (sep : ascii) (s : string) : list string :=
  match s with
  | EmptyString => [EmptyString]
  | String c s' =>
      match split sep s' with
      | [] => [EmptyString]
      | piece :: pieces =>
          if Ascii.eqb c sep then EmptyString :: piece :: pieces
          else String c piece :: pieces
      end
  end.

(** *** [String.prototype.trim]

    ECMAScript strips WhiteSpace and LineTerminator code points:
    U+0009..U+000D, U+0020, U+00A0, U+1680, U+2000..U+200A, U+2028,
    U+2029, U+202F, U+205F, U+3000 and U+FEFF.  On UTF-8 bytes these are
    one-, two- and three-byte sequences. *)

Definition ws1 (c : ascii) : bool :=
  ((9 <=? code c)%N && (code c <=? 13)%N) || (code c =? 32)%N.

Definition ws2 (c1 c2 : ascii) : bool :=
  (code c1 =? 0xC2)%N && (code c2 =? 0xA0)%N.

Definition ws3 (c1 c2 c3 : ascii) : bool :=
  let a := code c1 in let b := code c2 in let c := code c3 in
  ((a =? 0xE1) && (b =? 0x9A) && (c =? 0x80))%N
  || ((a =? 0xE2) && (b =? 0x80)
      && (((0x80 <=? c) && (c <=? 0x8A)) || (c =? 0xA8) || (c =? 0xA9) || (c =? 0xAF)))%N
  || ((a =? 0xE2) && (b =? 0x81) && (c =? 0x9F))%N
  || ((a =? 0xE3) && (b =? 0x80) && (c =? 0x80))%N
  || ((a =? 0xEF) && (b =? 0xBB) && (c =? 0xBF))%N.

(** One white-space code point at the front of [s], if any: the rest. *)
Definition stripWs (s : string) : option string :=
  match s with
  | EmptyString => None
  | String c1 s1 =>
      if ws1 c1 then Some s1 else
      match s1 with
      | EmptyString => None
      | String c2 s2 =>
          if ws2 c1 c2 then Some s2 else
          match s2 with
          | EmptyString => None
          | String c3 s3 => if ws3 c1 c2 c3 then Some s3 else None
          end
      end
  end.

Fixpoint trimStart (s : string) : string :=
  match s with
  | EmptyString => EmptyString
  | String c1 s1 =>
      if ws1 c1 then trimStart s1 else
      match s1 with
      | EmptyString => s
      | String c2 s2 =>
          if ws2 c1 c2 then trimStart s2 else
          match s2 with
          | EmptyString => s
          | String c3 s3 => if ws3 c1 c2 c3 then trimStart s3 else s
          end
      end
  end.

(** [s] consists of white space only. *)
Definition blank (s : string) : bool := isEmpty (trimStart s).

Fixpoint trimEnd (s : string) : string :=
  match s with
  | EmptyString => EmptyString
  | String c s' => if blank s then EmptyString else String c (trimEnd s')
  end.

Definition trim (s : string) : string := trimEnd (trimStart s).

(** Decimal rendering of a number inside a template literal. *)
Definition ofNat (n : nat) : string := NilEmpty.string_of_uint (Nat.to_uint n).
Definition ofN (n : N) : string := NilEmpty.string_of_uint (N.to_uint n).

End Str.

(** ** The platform's URL API

    [new URL(raw)], [url.hostname], [url.pathname], [url.searchParams] and
    [url.toString()] are browser built-ins (WHATWG URL Standard).  They are
    modelled here on a fragment of the absolute http(s) URLs, those that the
    parser leaves as they are apart from lower-casing scheme and host:

    - scheme [http] or [https] in any letter case, followed by [://];
    - a host of lower- or upper-case letters, digits, [.] and [-], whose
      last label starts with a letter (so it is not read as an IPv4
      address) and that has no [xn--] label; no user info and no port;
    - a path, query and fragment over unreserved and sub-delimiter bytes
      that the parser does not percent-encode, and a path without
      dot-segments;
    - query parameters that percent-decode to ASCII.

    [parse] answers [None] where [new URL] throws a [TypeError] and also
    on URLs outside this fragment; every statement below about absolute
    URLs is made for inputs on which [parse] succeeds. *)

Module URL.

Record t := mk {
  scheme : string;            (* without the colon *)
  hostname : string;
  pathname : string;
  query : option string;      (* without the question mark; None = null *)
  fragment : option string    (* without the hash; None = null *)
}.

(** *** application/x-www-form-urlencoded *)

Definition hexVal (c : ascii) : option N :=
  let n := Str.code c in
  if Str.isDigit c then Some (n - 48)%N
  else if ((65 <=? n) && (n <=? 70))%N then Some (n - 55)%N
  else if ((97 <=? n) && (n <=? 102))%N then Some (n - 87)%N
  else None.

Definition hexChar (n : N) : ascii :=
  if (n <? 10)%N then ascii_of_N (48 + n) else ascii_of_N (55 + n).

Fixpoint percentDecode (s : string) : string :=
  match s with
  | EmptyString => EmptyString
  | String c t =>
      match t with
      | String h1 (String h2 rest) =>
          if Ascii.eqb c "%" then
            match hexVal h1, hexVal h2 with
            | Some a, Some b => String (ascii_of_N (16 * a + b)) (percentDecode rest)
            | _, _ => String c (percentDecode t)
            end
          else String c (percentDecode t)
      | _ => String c (percentDecode t)
      end
  end.

Fixpoint plusToSpace (s : string) : string :=
  match s with
  | EmptyString => EmptyString
  | String c t => String (if Ascii.eqb c "+" then " "%char else c) (plusToSpace t)
  end.

Definition decodeComponent (s : string) : string := percentDecode (plusToSpace s).

(** Bytes the urlencoded serializer leaves as they are. *)
Definition unreserved (c : ascii) : bool := Str.isAlnum c || Str.mem c "*-._".

Definition encodeByte (c : ascii) : string :=
  if unreserved c then String c EmptyString
  else if Ascii.eqb c " " then "+"
  else String "%" (String (hexChar (Str.code c / 16)) (String (hexChar (Str.code c mod 16)) EmptyString)).

Fixpoint encodeComponent (s : string) : string :=
  match s with
  | EmptyString => EmptyString
  | String c t => encodeByte c +:+ encodeComponent t
  end.

Definition Params := list (string * string).

Definition parsePair (piece : string) : string * string :=
  let '(n, r) := Str.break (Ascii.eqb "=") piece in
  (decodeComponent n, decodeComponent (match r with String _ v => v | EmptyString => EmptyString end)).

(** The urlencoded parser: empty pieces between [&] are skipped. *)
Definition parseQs (q : string) : Params :=
  map parsePair (List.filter (fun piece => negb (Str.isEmpty piece)) (Str.split "&" q)).

Definition serializePair (nv : string * string) : string :=
  encodeComponent (fst nv) +:+ "=" +:+ encodeComponent (snd nv).

Fixpoint serializeQs (l : Params) : string :=
  match l with
  | [] => EmptyString
  | [nv] => serializePair nv
  | nv :: l' => serializePair nv +:+ "&" +:+ serializeQs l'
  end.

(** *** URLSearchParams *)

Definition has (name : string) (l : Params) : bool :=
  existsb (fun nv => String.eqb (fst nv) name) l.

Fixpoint get (name : string) (l : Params) : option string :=
  match l with
  | [] => None
  | (n, v) :: l' => if String.eqb n name then Some v else get name l'
  end.

(** [set]: the first pair named [name] takes the value, later ones go;
    without such a pair the new one is appended. *)
Fixpoint set (name value : string) (l : Params) : Params :=
  match l with
  | [] => [(name, value)]
  | (n, v) :: l' =>
      if String.eqb n name
      then (n, value) :: List.filter (fun nv => negb (String.eqb (fst nv) name)) l'
      else (n, v) :: set name value l'
  end.

Definition searchParams (u : t) : Params :=
  match query u with Some q => parseQs q | None => [] end.

(** Assigning through [url.searchParams] rewrites the URL's query with
    the serialized list ([null] when that is empty). *)
Definition updateQuery (u : t) (l : Params) : t :=
  let q := serializeQs l in
  mk (scheme u) (hostname u) (pathname u)
     (if Str.isEmpty q then None else Some q) (fragment u).

(** *** Parsing and serializing *)

Definition hostChar (c : ascii) : bool := Str.isLower c || Str.isDigit c || Str.mem c ".-".
Definition pathChar (c : ascii) : bool := Str.isAlnum c || Str.mem c "-._~!$&()*+,;=:@/%".
Definition queryChar (c : ascii) : bool := Str.isAlnum c || Str.mem c "-._~!$&()*+,;=:@/?%".

Fixpoint lastLabel (h : string) : string :=
  match h with
  | EmptyString => EmptyString
  | String c r =>
      if Str.mem "." r then lastLabel r
      else if Ascii.eqb c "." then r else h
  end.

Definition hostOk (h : string) : bool :=
  negb (Str.isEmpty h) && Str.forallb hostChar h
  && negb (Str.includes "xn--" h)
  && match lastLabel h with String c _ => Str.isLower c | EmptyString => false end.

Definition pathOk (p : string) : bool :=
  Str.startsWith "/" p && Str.forallb pathChar p
  && negb (Str.includes "/." p) && negb (Str.includes "/%2e" p) && negb (Str.includes "/%2E" p).

Definition isAscii (s : string) : bool := Str.forallb (fun c => (Str.code c <? 128)%N) s.

Definition asciiPair (nv : string * string) : bool := isAscii (fst nv) && isAscii (snd nv).

Definition queryOk (q : string) : bool :=
  Str.forallb queryChar q && List.forallb asciiPair (parseQs q).

Definition fragmentOk (f : string) : bool := Str.forallb queryChar f.

Definition wf (u : t) : bool :=
  (String.eqb (scheme u) "http" || String.eqb (scheme u) "https")
  && hostOk (hostname u) && pathOk (pathname u)
  && match query u with Some q => queryOk q | None => true end
  && match fragment u with Some f => fragmentOk f | None => true end.

(** Strip [p] (lower-case) from the front of [s], ignoring letter case. *)
Fixpoint stripPrefixCI (p s : string) : option string :=
  match p, s with
  | EmptyString, _ => Some s
  | String a p', String b s' =>
      if Ascii.eqb (Str.lowerChar b) a then stripPrefixCI p' s' else None
  | String _ _, EmptyString => None
  end.

Definition splitScheme (raw : string) : option (string * string) :=
  match stripPrefixCI "https://" raw with
  | Some r => Some ("https", r)
  | None =>
      match stripPrefixCI "http://" raw with
      | Some r => Some ("http", r)
      | None => None
      end
  end.

(** The query, if a question mark comes next, and what follows it. *)
Definition splitQuery (r2 : string) : option string * string :=
  match r2 with
  | String "?" r => let '(q, r') := Str.break (Ascii.eqb "#") r in (Some q, r')
  | _ => (None, r2)
  end.

(** The fragment: what follows the hash, if anything is left. *)
Definition splitFragment (r3 : string) : option string :=
  match r3 with String _ f => Some f | EmptyString => None end.

Definition parse (raw : string) : option t :=
  match splitScheme raw with
  | None => None
  | Some (sch, r0) =>
      let '(host, r1) := Str.break (fun c => Str.mem c "/?#") r0 in
      let '(path, r2) := Str.break (fun c => Str.mem c "?#") r1 in
      let '(q, r3) := splitQuery r2 in
      let u := mk sch (Str.toLowerCase host)
                  (if Str.isEmpty path then "/" else path) q (splitFragment r3) in
      if wf u then Some u else None
  end.

(** [url.toString()], the href. *)
Definition toString (u : t) : string :=
  scheme u +:+ "://" +:+ hostname u +:+ pathname u
  +:+ match query u with Some q => "?" +:+ q | None => EmptyString end
  +:+ match fragment u with Some f => "#" +:+ f | None => EmptyString end.

End URL.

(** ** Media URL normalizer *)

(** [/^(\/|\.\/|\.\.\/)/.test(raw)] *)
Definition relativeRe (raw : string) : bool :=
  Str.startsWith "/" raw || Str.startsWith "./" raw || Str.startsWith "../" raw.

(** [/^https?:\/\//i.test(raw)] *)
Definition httpRe (raw : string) : bool :=
  match URL.splitScheme raw with Some _ => true | None => false end.

(** [pathname.match(/\/file\/d\/([^/]+)/)]: the first capture of the
    leftmost match. *)
Definition fileDHere (path : string) : option string :=
  if Str.startsWith "/file/d/" path then
    let '(seg, _) := Str.break (Ascii.eqb "/") (Str.drop 8 path) in
    if Str.isEmpty seg then None else Some seg
  else None.

Fixpoint matchFileD (path : string) : option string :=
  match fileDHere path with
  | Some seg => Some seg
  | None =>
      match path with
      | EmptyString => None
      | String _ path' => matchFileD path'
      end
  end.

(** [searchParams.get('id') || ''] after the path match failed. *)
Definition driveId (url : URL.t) : string :=
  match matchFileD (URL.pathname url) with
  | Some seg => seg
  | None => default EmptyString (URL.get "id" (URL.searchParams url))
  end.

(** The body of the [try] once [new URL(raw)] has succeeded. *)
Definition normalizeParsed (url : URL.t) : string :=
  let host := URL.hostname url in
  if Str.includes "dropbox.com" host then
    let sp := URL.searchParams url in
    if URL.has "dl" sp then URL.toString (URL.updateQuery url (URL.set "dl" "1" sp))
    else if negb (URL.has "raw" sp) then URL.toString (URL.updateQuery url (URL.set "raw" "1" sp))
    else URL.toString url
  else if Str.includes "drive.google.com" host then
    let id := driveId url in
    if negb (Str.isEmpty id) then "https://drive.google.com/uc?export=download&id=" +:+ id
    else URL.toString url
  else URL.toString url.

Definition normalizeMediaUrl (u : string) : string :=
  let raw := Str.trim u in
  if Str.isEmpty raw then EmptyString
  else if relativeRe raw || negb (httpRe raw) then raw
  else
    match URL.parse raw with
    | Some url => normalizeParsed url
    | None => u                                   (* catch *)
    end.

(** Bytes that stand for themselves in a query string: not a separator,
    not an escape, and not re-encoded by the URL parser. *)
Definition plainQueryChar (c : ascii) : bool := Str.isAlnum c || Str.mem c "-._~!$()*,;=:@/?".

(** The inputs on which normalizing twice is shown to equal normalizing
    once: what passes through (empty, relative, not http), and the
    absolute URLs of the modelled fragment, where for a Drive host the
    extracted file id has to consist of plain query bytes. *)
Definition idempotentScope (x : string) : bool :=
  let raw := Str.trim x in
  Str.isEmpty raw || relativeRe raw || negb (httpRe raw)
  || match URL.parse raw with
     | None => false
     | Some url =>
         Str.includes "dropbox.com" (URL.hostname url)
         || negb (Str.includes "drive.google.com" (URL.hostname url))
         || Str.forallb plainQueryChar (driveId url)
     end.

(** ** The environment: clock and random sources

    [Date.now()], [Math.random().toString(36).slice(2)] and
    [crypto.randomUUID?.()] read the outside world.  A [World] records what
    each successive call answers and how many calls were made so far;
    [Date.now()] is a non-negative count of milliseconds, the random suffix
    is the string that [toString(36).slice(2)] leaves, and [randomUUID]
    answers [None] where the function does not exist. *)

Record World := mkWorld {
  dateNow : nat -> N;
  mathRandom36 : nat -> string;
  randomUUID : nat -> option string;
  nowCalls : nat;
  randomCalls : nat;
  uuidCalls : nat
}.

Definition M (A : Type) : Type := World -> A * World.

Definition ret {A} (x : A) : M A := fun w => (x, w).
Definition bind {A B} (m : M A) (k : A -> M B) : M B :=
  fun w => let '(a, w') := m w in k a w'.

Declare Scope js_scope.
Delimit Scope js_scope with js.
Notation "'let*' x ':=' m 'in' k" := (bind m (fun x => k))
  (at level 10, x name, m at level 100, k at level 200) : js_scope.
Local Open Scope js_scope.

Definition Date_now : M N := fun w =>
  (dateNow w (nowCalls w),
   mkWorld (dateNow w) (mathRandom36 w) (randomUUID w) (S (nowCalls w)) (randomCalls w) (uuidCalls w)).

Definition Math_random36 : M string := fun w =>
  (mathRandom36 w (randomCalls w),
   mkWorld (dateNow w) (mathRandom36 w) (randomUUID w) (nowCalls w) (S (randomCalls w)) (uuidCalls w)).

Definition crypto_randomUUID : M (option string) := fun w =>
  (randomUUID w (uuidCalls w),
   mkWorld (dateNow w) (mathRandom36 w) (randomUUID w) (nowCalls w) (randomCalls w) (S (uuidCalls w))).

(** [arr.map((x, i) => f(x, i))] with an effectful callback, left to right. *)
Fixpoint mapiM {A B} (f : A -> nat -> M B) (i : nat) (l : list A) : M (list B) :=
  match l with
  | [] => ret []
  | x :: l' =>
      let* y := f x i in
      let* ys := mapiM f (S i) l' in
      ret (y :: ys)
  end.

(** ** Data model

    The dictionaries are keyed by date keys and weekday labels; the
    members that a JavaScript object inherits from [Object.prototype] are
    not among them and are left out. *)

Record ChecklistItem := mkItem { id : string; text : string; done : bool }.

Record Meals := mkMeals { breakfast : string; lunch : string; dinner : string; notes : string }.

Record Entry := mkEntry {
  date : string;
  weight : string;
  meals : Meals;
  checklist : list ChecklistItem
}.

(** [goalWeight] is a JavaScript number; no statement below inspects it and
    it is kept as an integer. *)
Record Settings := mkSettings {
  goalWeight : Z;
  weeklyMusic : gmap string string;
  templates : gmap string (list string)
}.

Record AppState := mkState { entries : gmap string Entry; settings : Settings }.

(** [Partial<Entry>]: the fields an object spread overrides. *)
Record PartialEntry := mkPartial {
  p_date : option string;
  p_weight : option string;
  p_meals : option Meals;
  p_checklist : option (list ChecklistItem)
}.

Inductive MealKey := Kbreakfast | Klunch | Kdinner | Knotes.

(** [{ ...e, ...partial }] *)
Definition spread (e : Entry) (partial : PartialEntry) : Entry :=
  mkEntry (default (date e) (p_date partial))
          (default (weight e) (p_weight partial))
          (default (meals e) (p_meals partial))
          (default (checklist e) (p_checklist partial)).

(** [{ ...meals, [k]: v }] *)
Definition setMeal (m : Meals) (k : MealKey) (v : string) : Meals :=
  match k with
  | Kbreakfast => mkMeals v (lunch m) (dinner m) (notes m)
  | Klunch => mkMeals (breakfast m) v (dinner m) (notes m)
  | Kdinner => mkMeals (breakfast m) (lunch m) v (notes m)
  | Knotes => mkMeals (breakfast m) (lunch m) (dinner m) v
  end.

Definition blankMeals : Meals := mkMeals "" "" "" "".

(** The seven weekday labels, Sunday first as [weekdayStr] indexes them. *)
Definition weekdayLabels : list string := ["日"; "月"; "火"; "水"; "木"; "金"; "土"].

Definition defaultSettings : Settings :=
  mkSettings 60
    (list_to_map [("月", ""); ("火", ""); ("水", ""); ("木", ""); ("金", ""); ("土", ""); ("日", "")])
    (list_to_map
       [("月", ["肩回しストレッチ 1分"; "壁プッシュアップ 15回×2"; "肩甲骨寄せ 15回×2"]);
        ("火", ["スクワット 15回×2"; "カーフレイズ 20回×2"; "股関節ストレッチ 1分"]);
        ("水", ["プランク 20秒×3"; "サイドプランク 各15秒×2"; "キャットカウ"]);
        ("木", ["タオル肩回し 10回×2"; "スーパーマン 10回×2"; "肩甲骨寄せ 15回×2"]);
        ("金", ["スクワット 15回"; "膝つき腕立て 10回"; "マウンテンクライマー 20回"]);
        ("土", ["その場足踏み 2〜3分×2"; "腕振り大きく 1分"]);
        ("日", ["全身ストレッチ 10分"; "深呼吸 1分"])]).

(** A property key made from a value that may be [undefined]. *)
Definition propKey (k : option string) : string := default "undefined" k.

(** ** Entry factory and state store

    [new Date(dateStr).getDay()] is the platform's: [getDay] gives the
    weekday index 0..6 in the local calendar, or [None] for an invalid
    date ([NaN]). *)

Section Store.

Variable getDay : string -> option nat.

Definition weekdayStr (dateStr : string) : option string :=
  match getDay dateStr with
  | Some n => weekdayLabels !! n
  | None => None
  end.

(** The template literal of a fresh item's [id]. *)
Definition itemId (dateStr : string) (i : nat) (now : N) (rnd : string) : string :=
  dateStr +:+ "-" +:+ Str.ofNat i +:+ "-" +:+ Str.ofN now +:+ "-" +:+ rnd.

Definition newItem (dateStr : string) (t : string) (i : nat) : M ChecklistItem :=
  let* now := Date_now in
  let* rnd := Math_random36 in
  ret (mkItem (itemId dateStr i now rnd) t false).

Definition buildEntry (dateStr : string) (settings : Settings) : M Entry :=
  let w := weekdayStr dateStr in
  let tpl := default [] (templates settings !! propKey w) in
  let* items := mapiM (newItem dateStr) 0 tpl in
  ret (mkEntry dateStr "" blankMeals items).

Definition ensureEntry (state : AppState) (dateStr : string) : M AppState :=
  match entries state !! dateStr with
  | Some _ => ret state
  | None =>
      let* e := buildEntry dateStr (settings state) in
      ret (mkState (<[dateStr := e]> (entries state)) (settings state))
  end.

(** [JSON.parse(JSON.stringify(prev))]: a structural copy; values are
    immutable here, so the copy is the value itself. *)
Definition deepCopy (prev : AppState) : AppState := prev.

(** The handlers of the component close over the rendered snapshot
    [data] and the selected [dateStr]; the updater passed to [setData]
    receives the latest state [prev].  A handler that returns without
    calling [setData] leaves [prev] as it is.  An assignment to
    [copy.entries[dateStr]] or to one of its fields comes after
    [ensureEntry], when the entry is there: it is an [alter]. *)

Definition updateEntry (dateStr : string) (partial : PartialEntry) (prev : AppState) : M AppState :=
  let copy := deepCopy prev in
  let* copy := ensureEntry copy dateStr in
  ret (mkState (alter (fun e => spread e partial) dateStr (entries copy)) (settings copy)).

Definition updateMeals (data : AppState) (dateStr : string) (k : MealKey) (v : string)
    (prev : AppState) : M AppState :=
  let current := match entries data !! dateStr with Some entry => meals entry | None => blankMeals end in
  updateEntry dateStr (mkPartial None None (Some (setMeal current k v)) None) prev.

Definition toggleItem (target : string) (c : ChecklistItem) : ChecklistItem :=
  if String.eqb (id c) target then mkItem (id c) (text c) (negb (done c)) else c.

Definition toggleChecklist (data : AppState) (dateStr : string) (target : string)
    (prev : AppState) : M AppState :=
  match entries data !! dateStr with
  | None => ret prev
  | Some entry =>
      updateEntry dateStr (mkPartial None None None (Some (map (toggleItem target) (checklist entry)))) prev
  end.

(** [promptResult] is what [prompt] returned ([None] for [null]). *)
Definition addChecklistItem (dateStr : string) (promptResult : option string)
    (prev : AppState) : M AppState :=
  let text := Str.trim (default "" promptResult) in
  if Str.isEmpty text then ret prev
  else
    let copy := deepCopy prev in
    let* copy := ensureEntry copy dateStr in
    let* uuid := crypto_randomUUID in
    let* suffix :=
      match uuid with
      | Some u => if Str.isEmpty u then Math_random36 else ret u
      | None => Math_random36
      end in
    let item := mkItem (dateStr +:+ "-" +:+ suffix) text false in
    ret (mkState
           (alter (fun e => mkEntry (date e) (weight e) (meals e) (checklist e ++ [item]))
                  dateStr (entries copy))
           (settings copy)).

Definition removeChecklistItem (dateStr : string) (target : string)
    (prev : AppState) : M AppState :=
  let copy := deepCopy prev in
  let* copy := ensureEntry copy dateStr in
  ret (mkState
         (alter (fun e => mkEntry (date e) (weight e) (meals e)
                            (List.filter (fun c => negb (String.eqb (id c) target)) (checklist e)))
                dateStr (entries copy))
         (settings copy)).

End Store.

(** ** Settings mutations *)

Definition setWeeklyMusic (weekday : string) (rawUrl : string) (prev : AppState) : AppState :=
  let trimmed := Str.trim rawUrl in
  let fixed := if Str.isEmpty trimmed then "" else normalizeMediaUrl trimmed in
  mkState (entries prev)
          (mkSettings (goalWeight (settings prev))
                      (<[weekday := fixed]> (weeklyMusic (settings prev)))
                      (templates (settings prev))).

(** [WeekTemplateEditor.updateList]: the settings handed to [onChange]. *)
Definition updateList (settings : Settings) (day : string) (next : list string) : Settings :=
  mkSettings (goalWeight settings) (weeklyMusic settings) (<[day := next]> (templates settings)).

(** [onChange={(next) => setData(prev => ({ ...prev, settings: next }))}] *)
Definition setSettings (next : Settings) (prev : AppState) : AppState :=
  mkState (entries prev) next.

(** The goal-weight input's [onChange]. *)
Definition setGoalWeight (g : Z) (prev : AppState) : AppState :=
  mkState (entries prev)
          (mkSettings g (weeklyMusic (settings prev)) (templates (settings prev))).

(** ** JSON values, persistence, import *)

#[warnings="-register-all"]
Inductive JValue :=
| JNull
| JBool (b : bool)
| JNum (z : Z)
| JStr (s : string)
| JArr (l : list JValue)
| JObj (members : list (string * JValue)).

(** [v[k]] on a parsed value; [None] is [undefined].  Of members with the
    same key the last one counts, as in [JSON.parse]. *)
Fixpoint assoc (k : string) (members : list (string * JValue)) : option JValue :=
  match members with
  | [] => None
  | (k', v) :: rest =>
      match assoc k rest with
      | Some v' => Some v'
      | None => if String.eqb k' k then Some v else None
      end
  end.

Definition field (v : JValue) (k : string) : option JValue :=
  match v with
  | JObj members => assoc k members
  | _ => None
  end.

(** A typed state seen as the run-time value it is. *)
Definition itemValue (c : ChecklistItem) : JValue :=
  JObj [("id", JStr (id c)); ("text", JStr (text c)); ("done", JBool (done c))].

Definition mealsValue (m : Meals) : JValue :=
  JObj [("breakfast", JStr (breakfast m)); ("lunch", JStr (lunch m));
        ("dinner", JStr (dinner m)); ("notes", JStr (notes m))].

Definition entryValue (e : Entry) : JValue :=
  JObj [("date", JStr (date e)); ("weight", JStr (weight e));
        ("meals", mealsValue (meals e)); ("checklist", JArr (map itemValue (checklist e)))].

(** A dictionary as an object value.  The members come in the order of
    the map, not in insertion order; no statement depends on the order. *)
Definition objectValue {A} (f : A -> JValue) (m : gmap string A) : JValue :=
  JObj (map (fun kv => (fst kv, f (snd kv))) (map_to_list m)).

Definition settingsValue (s : Settings) : JValue :=
  JObj [("goalWeight", JNum (goalWeight s));
        ("weeklyMusic", objectValue JStr (weeklyMusic s));
        ("templates", objectValue (fun l => JArr (map JStr l)) (templates s))].

Definition stateValue (s : AppState) : JValue :=
  JObj [("entries", objectValue entryValue (entries s)); ("settings", settingsValue (settings s))].

(** [{ entries: {}, settings: defaultSettings() }] *)
Definition freshState : AppState := mkState ∅ defaultSettings.

Definition importFailed : string := "読み込みに失敗しました。JSONを確認してください。".

Section Persistence.

(** [JSON.parse] is the platform's; [None] stands for a thrown
    [SyntaxError]. *)
Variable JSON_parse : string -> option JValue.

(** [stored] is [localStorage.getItem(LS_KEY)], [None] for [null]. *)
Definition loadData (stored : option string) : JValue :=
  match stored with
  | Some raw =>
      if Str.isEmpty raw then stateValue freshState
      else
        match JSON_parse raw with
        | Some v => v
        | None => stateValue freshState              (* catch *)
        end
  | None => stateValue freshState
  end.

(** The component state that an import touches: the current [data] and
    the messages shown with [alert]. *)
Record UI := mkUI { data : JValue; alerts : list string }.

(** [reader.onload] of [importJSON], on the text read from the file. *)
Definition importJSON (contents : string) (ui : UI) : UI :=
  match JSON_parse contents with
  | Some parsed => mkUI parsed (alerts ui)
  | None => mkUI (data ui) (alerts ui ++ [importFailed])
  end.

End Persistence.

(** A reference [JSON.parse] on a fragment of JSON: literals, integers,
    strings without escapes, arrays and objects.  It instantiates the
    platform parameter in examples. *)
Module Json.

Definition quote : ascii := ascii_of_N 34.

Fixpoint skipWs (s : string) : string :=
  match s with
  | String c t =>
      if ((Str.code c =? 32) || (Str.code c =? 9) || (Str.code c =? 10) || (Str.code c =? 13))%N
      then skipWs t else s
  | EmptyString => s
  end.

Definition literal (lit : string) (v : JValue) (s : string) : option (JValue * string) :=
  if Str.startsWith lit s then Some (v, Str.drop (String.length lit) s) else None.

Fixpoint digits (acc : Z) (s : string) : Z * string :=
  match s with
  | String c t => if Str.isDigit c then digits (10 * acc + Z.of_N (Str.code c - 48)) t else (acc, s)
  | EmptyString => (acc, s)
  end.

Definition number (s : string) : option (JValue * string) :=
  let '(neg, body) := match s with String "-" t => (true, t) | _ => (false, s) end in
  match body with
  | String c t =>
      if Str.isDigit c then
        let '(z, r) := digits 0 body in
        let leadingZero := Ascii.eqb c "0" && negb (String.eqb (Str.drop 1 body) r) in
        let more := match r with String d _ => Str.mem d ".eE" | EmptyString => false end in
        if leadingZero || more then None else Some (JNum (if neg then - z else z), r)
      else None
  | EmptyString => None
  end.

Definition stringBody (s : string) : option (string * string) :=
  let '(body, r) := Str.break (fun c => Ascii.eqb c quote || Ascii.eqb c "\" || (Str.code c <? 32)%N) s in
  match r with
  | String c r' => if Ascii.eqb c quote then Some (body, r') else None
  | EmptyString => None
  end.

Fixpoint value (fuel : nat) (s : string) : option (JValue * string) :=
  match fuel with
  | O => None
  | S fuel' =>
      match skipWs s with
      | EmptyString => None
      | String c t =>
          if Ascii.eqb c "n" then literal "null" JNull (String c t)
          else if Ascii.eqb c "t" then literal "true" (JBool true) (String c t)
          else if Ascii.eqb c "f" then literal "false" (JBool false) (String c t)
          else if Ascii.eqb c quote then
            match stringBody t with Some (b, r) => Some (JStr b, r) | None => None end
          else if Ascii.eqb c "[" then
            match skipWs t with
            | String "]" r => Some (JArr [], r)
            | t' => match elements fuel' t' with Some (l, r) => Some (JArr l, r) | None => None end
            end
          else if Ascii.eqb c "{" then
            match skipWs t with
            | String "}" r => Some (JObj [], r)
            | t' => match members fuel' t' with Some (l, r) => Some (JObj l, r) | None => None end
            end
          else number (String c t)
      end
  end
with elements (fuel : nat) (s : string) : option (list JValue * string) :=
  match fuel with
  | O => None
  | S fuel' =>
      match value fuel' s with
      | None => None
      | Some (v, r) =>
          match skipWs r with
          | String "]" r' => Some ([v], r')
          | String "," r' =>
              match elements fuel' r' with Some (l, r'') => Some (v :: l, r'') | None => None end
          | _ => None
          end
      end
  end
with members (fuel : nat) (s : string) : option (list (string * JValue) * string) :=
  match fuel with
  | O => None
  | S fuel' =>
      match skipWs s with
      | String c t =>
          if Ascii.eqb c quote then
            match stringBody t with
            | None => None
            | Some (k, r) =>
                match skipWs r with
                | String ":" r1 =>
                    match value fuel' r1 with
                    | None => None
                    | Some (v, r2) =>
                        match skipWs r2 with
                        | String "}" r3 => Some ([(k, v)], r3)
                        | String "," r3 =>
                            match members fuel' r3 with
                            | Some (l, r4) => Some ((k, v) :: l, r4)
                            | None => None
                            end
                        | _ => None
                        end
                    end
                | _ => None
                end
            end
          else None
      | EmptyString => None
      end
  end.

Definition parse (s : string) : option JValue :=
  match value (2 * String.length s + 2) s with
  | Some (v, r) => if Str.isEmpty (skipWs r) then Some v else None
  | None => None
  end.

End Json.

(** ** Background caching: the page's request and the worker's handler *)

(** The object [precacheTodayMusic] hands to [postMessage]. *)
Definition precacheMessage (url : string) : JValue :=
  JObj [("type", JStr "CACHE_URL"); ("url", JStr url)].

Section Precache.

Variable getDay : string -> option nat.

(** The message posted to the active worker, if any: none when the
    weekday has no URL ([!url]).  A registered, active worker is
    assumed. *)
Definition precacheTodayMusic (data : AppState) (dateStr : string) : option JValue :=
  let w := weekdayStr getDay dateStr in
  match weeklyMusic (settings data) !! propKey w with
  | Some url => if Str.isEmpty url then None else Some (precacheMessage url)
  | None => None
  end.

End Precache.

Module SW.

(** JavaScript truthiness of a parsed value. *)
Definition truthy (v : JValue) : bool :=
  match v with
  | JNull => false
  | JBool b => b
  | JNum z => negb (z =? 0)%Z
  | JStr s => negb (Str.isEmpty s)
  | JArr _ | JObj _ => true
  end.

Fixpoint strings (l : list JValue) : list string :=
  match l with
  | [] => []
  | JStr s :: l' => s :: strings l'
  | _ :: l' => strings l'
  end.

(** The [message] listener of [sw.js] on [event.data]: the URLs it
    passes to [cache.addAll], none when it does not act. *)
Definition onMessage (data : JValue) : list string :=
  if truthy data then
    match field data "type" with
    | Some (JStr ty) =>
        if String.eqb ty "CACHE_URLS" then
          match field data "urls" with
          | Some (JArr urls) => strings urls
          | _ => []
          end
        else []
    | _ => []
    end
  else [].

End SW.

(** ** A calendar for examples

    [getDay] of the platform depends on the local time zone; this instance
    reads a [YYYY-MM-DD] key as a proleptic Gregorian date in UTC. *)
Module Calendar.

Fixpoint number (acc : Z) (s : string) : option Z :=
  match s with
  | EmptyString => Some acc
  | String c t => if Str.isDigit c then number (10 * acc + Z.of_N (Str.code c - 48)) t else None
  end.

Definition isLeap (y : Z) : bool :=
  ((y mod 4 =? 0) && (negb (y mod 100 =? 0) || (y mod 400 =? 0)))%Z.

Definition daysInMonth (y m : Z) : Z :=
  if (m =? 2)%Z then (if isLeap y then 29 else 28)%Z
  else if ((m =? 4) || (m =? 6) || (m =? 9) || (m =? 11))%Z then 30%Z else 31%Z.

(** Days since 1970-01-01. *)
Definition daysFromCivil (y m d : Z) : Z :=
  let y' := (if m <=? 2 then y - 1 else y)%Z in
  let era := (y' / 400)%Z in
  let yoe := (y' - era * 400)%Z in
  let doy := ((153 * (if m >? 2 then m - 3 else m + 9) + 2) / 5 + d - 1)%Z in
  let doe := (yoe * 365 + yoe / 4 - yoe / 100 + doy)%Z in
  (era * 146097 + doe - 719468)%Z.

Definition getDay (dateStr : string) : option nat :=
  if (String.length dateStr =? 10)%nat
     && String.eqb (String.substring 4 1 dateStr) "-"
     && String.eqb (String.substring 7 1 dateStr) "-"
  then
    match number 0 (String.substring 0 4 dateStr),
          number 0 (String.substring 5 2 dateStr),
          number 0 (String.substring 8 2 dateStr) with
    | Some y, Some m, Some d =>
        if ((1 <=? m) && (m <=? 12) && (1 <=? d) && (d <=? daysInMonth y m))%Z
        then Some (Z.to_nat ((daysFromCivil y m d + 4) mod 7))
        else None
    | _, _, _ => None
    end
  else None.

End Calendar.

(** ** The seven-weekday invariant of the settings *)

Definition weekdaySet : gset string := list_to_set weekdayLabels.

Definition sevenKeys (s : Settings) : Prop :=
  dom (weeklyMusic s) = weekdaySet /\ dom (templates s) = weekdaySet.

(** The world after [k] more readings of the clock and of the random source. *)
Definition advance (k : nat) (w : World) : World :=
  mkWorld (dateNow w) (mathRandom36 w) (randomUUID w)
          (nowCalls w + k) (randomCalls w + k) (uuidCalls w).

(** A world whose clock stands still and whose random source repeats. *)
Definition stillWorld : World :=
  mkWorld (fun _ => 1757289600000%N) (fun _ => "k3x9q2") (fun _ => None) 0 0 0.

(** A world whose clock advances and whose random source varies. *)
Definition tickingWorld : World :=
  mkWorld (fun n => (1757289600000 + N.of_nat n)%N) (fun n => "r" +:+ Str.ofNat n) (fun _ => None) 0 0 0.

(** [entries[d] = f(entries[d])]: a change of the entry of [d] in place. *)
Definition mutate (state : AppState) (d : string) (f : Entry -> Entry) : AppState :=
  mkState (alter f d (entries state)) (settings state).

(** [entries[d].weight = v] *)
Definition setWeight (v : string) (e : Entry) : Entry :=
  mkEntry (date e) v (meals e) (checklist e).

(** ** Auxiliary notions for the statements about URLs *)

(** Bytes in the output of the serializer: query bytes other than the two
    separators. *)
Definition encodedChar (c : ascii) : bool :=
  URL.queryChar c && negb (Ascii.eqb c "&") && negb (Ascii.eqb "=" c).

(** What makes the escape of one byte decode to that byte. *)
Definition encodeByteOk (c : ascii) : bool :=
  if URL.unreserved c then negb (Ascii.eqb c "+") && negb (Ascii.eqb c "%")
  else if Ascii.eqb c " " then true
  else
    let hi := URL.hexChar (Str.code c / 16) in
    let lo := URL.hexChar (Str.code c mod 16) in
    negb (Ascii.eqb hi "+") && negb (Ascii.eqb lo "+")
    && match URL.hexVal hi, URL.hexVal lo with
       | Some a, Some b => Ascii.eqb (ascii_of_N (16 * a + b)) c
       | _, _ => false
       end.

(** The tail of a serialized URL after its path. *)
Definition afterPath (q f : option string) : string :=
  match q with Some q => "?" +:+ q | None => EmptyString end
  +:+ match f with Some f => "#" +:+ f | None => EmptyString end.

(** The serialized form that the Drive branch writes. *)
Definition downloadUrl (id : string) : URL.t :=
  URL.mk "https" "drive.google.com" "/uc" (Some ("export=download&id=" +:+ id)) None.

(** ** More of the component: navigation, reset, template reload *)

Section Component.

Variable getDay : string -> option nat.

(** The effect that runs when the selected date changes. *)
Definition selectDate (dateStr : string) (prev : AppState) : M AppState :=
  let copy := deepCopy prev in
  ensureEntry getDay copy dateStr.

(** The user selecting one date after the other. *)
Fixpoint selectDates (dates : list string) (prev : AppState) : M AppState :=
  match dates with
  | [] => ret prev
  | d :: dates' =>
      let* next := selectDate d prev in
      selectDates dates' next
  end.

(** [confirmed] is what [confirm] returned. *)
Definition resetToday (dateStr : string) (confirmed : bool) (prev : AppState) : M AppState :=
  if confirmed then
    let copy := deepCopy prev in
    let* e := buildEntry getDay dateStr (settings copy) in
    ret (mkState (<[dateStr := e]> (entries copy)) (settings copy))
  else ret prev.

(** The entry is rebuilt from the settings of the rendered snapshot when
    the button is pressed; the updater then works on the latest state. *)
Definition applyTemplateOfWeekday (data : AppState) (dateStr : string) (prev : AppState) : M AppState :=
  let* rebuilt := buildEntry getDay dateStr (settings data) in
  updateEntry getDay dateStr (mkPartial None None None (Some (checklist rebuilt))) prev.

End Component.

(** ** The template editor's text area

    The source joins the lines with the two characters backslash and [n]
    (the string literal is written with a doubled backslash) and splits
    the edited text with the regular expression "backslash, then one or
    more [n]". *)

Definition lineSep : string := "\n".

(** [list.join(lineSep)] *)
Definition joinLines (lines : list string) : string := String.concat lineSep lines.

Definition consHead (c : ascii) (pieces : list string) : list string :=
  match pieces with
  | [] => [String c EmptyString]
  | piece :: pieces' => String c piece :: pieces'
  end.

(** [value.split(re)] for that expression: the pieces between the
    leftmost, longest matches.  [skip] holds right after a separator,
    while further [n]s still belong to it. *)
Fixpoint splitLines (skip : bool) (s : string) : list string :=
  match s with
  | EmptyString => [EmptyString]
  | String c t =>
      if skip && Ascii.eqb c "n" then splitLines true t
      else
        match t with
        | String d t' =>
            if Ascii.eqb c "\" && Ascii.eqb d "n" then EmptyString :: splitLines true t'
            else consHead c (splitLines false t)
        | EmptyString => [String c EmptyString]
        end
  end.

(** [value.split(re).filter(Boolean)] *)
Definition parseLines (value : string) : list string :=
  List.filter (fun piece => negb (Str.isEmpty piece)) (splitLines false value).

(** The text shown for [day]. *)
Definition templateText (settings : Settings) (day : string) : string :=
  joinLines (default [] (templates settings !! day)).

(** The text area's [onChange]. *)
Definition editTemplate (settings : Settings) (day : string) (value : string) : Settings :=
  updateList settings day (parseLines value).

(** A line that the text area gives back as it is: not empty, not
    starting with [n], without the separator inside. *)
Definition cleanLine (line : string) : bool :=
  negb (Str.isEmpty line) && negb (Str.startsWith "n" line) && negb (Str.includes lineSep line).

(** ** Azure Blob diagnostics *)

(** [s.endsWith(suffix)] *)
Fixpoint endsWith (suffix s : string) : bool :=
  String.eqb suffix s ||
  match s with
  | EmptyString => false
  | String _ s' => endsWith suffix s'
  end.

Definition isAzureBlob (u : string) : bool :=
  match URL.parse u with
  | Some url =>
      endsWith ".blob.core.windows.net" (URL.hostname url)
      || endsWith ".web.core.windows.net" (URL.hostname url)
  | None => false                                   (* catch *)
  end.

Definition azureHintFor (status : N) : option string :=
  if (status =? 404)%N then
    Some "Azure Blob 404: BlobNotFound。コンテナ名/ファイル名（大文字小文字）/SAS有効期限/アクセス許可を確認してください。URL 形式: https://<account>.blob.core.windows.net/<container>/<blob>.mp3"
  else if (status =? 403)%N then
    Some "Azure Blob 403: 読み取り許可不足。SASトークンに sp=r を含めるか、コンテナを匿名読み取り可に設定してください。"
  else if (status =? 0)%N then
    Some "Azure Blob 取得失敗: CORS未設定の可能性。ストレージアカウントのCORSで GET/HEAD を許可し、オリジン(または*)を追加してください。"
  else None.

Record AzureInfo := mkAzureInfo {
  container : string;
  blob : string;
  hasBlob : bool;
  hasSig : bool;
  se : option string;
  seExpired : bool
}.

(** [pathname.replace(/^\/+/, '')] *)
Fixpoint stripSlashes (p : string) : string :=
  match p with
  | String c t => if Ascii.eqb c "/" then stripSlashes t else p
  | EmptyString => p
  end.

Section Azure.

(** [Date.parse] is the platform's: milliseconds since the epoch, [None]
    for [NaN]. *)
Variable Date_parse : string -> option Z.

Definition parseAzureUrl (u : string) : M (option AzureInfo) :=
  match URL.parse u with
  | None => ret None                                 (* catch *)
  | Some url =>
      let parts := Str.split "/" (stripSlashes (URL.pathname url)) in
      let container := hd EmptyString parts in
      let blob := String.concat "/" (tl parts) in
      let se := URL.get "se" (URL.searchParams url) in
      let hasSig := URL.has "sig" (URL.searchParams url) in
      let* seExpired :=
        match se with
        | Some s =>
            if Str.isEmpty s then ret false
            else
              match Date_parse s with
              | Some t => let* now := Date_now in ret (t <? Z.of_N now)%Z
              | None => ret false
              end
        | None => ret false
        end in
      ret (Some (mkAzureInfo container blob (negb (Str.isEmpty blob)) hasSig se seExpired))
  end.

(** ** The diagnosis of a music URL

    [fetch] is the platform's.  A response is what the code reads of it;
    [ok] is, by the Fetch standard, a status from 200 to 299.  [head] and
    [get] say what the two requests answer if they are made, [None] for a
    rejected promise. *)

Record Response := mkResponse {
  status : N;
  statusText : string;
  contentType : option string          (* headers.get('content-type') *)
}.

Definition ok (r : Response) : bool := (200 <=? status r)%N && (status r <=? 299)%N.

Inductive Method := HEAD | GET.

(** [/^audio\//i.test(ct)] *)
Definition audioRe (ct : string) : bool :=
  match URL.stripPrefixCI "audio/" ct with Some _ => true | None => false end.

(** The tips for an Azure URL, joined with spaces. *)
Definition azureTips (info : option AzureInfo) (status : N) : string :=
  match info with
  | None => EmptyString
  | Some info =>
      String.concat " "
        ((if negb (hasBlob info) then ["URLがコンテナを指しています。ファイル名まで含めてください。例: https://<account>.blob.core.windows.net/<container>/<blob>.mp3"] else [])
         ++ (if negb (hasSig info) then ["SASトークン(sig)がありません。公開読み取りでない場合は署名付きURLが必要です。"] else [])
         ++ (match se info with
             | Some s =>
                 if negb (Str.isEmpty s) && seExpired info
                 then ["SASの期限(se=" +:+ s +:+ ")が切れています。新しい署名を発行してください。"]
                 else []
             | None => []
             end)
         ++ (if (status =? 404)%N && hasBlob info
             then ["BlobNotFound: container='" +:+ container info +:+ "', blob='" +:+ blob info
                   +:+ "'。大文字小文字/拡張子/サブフォルダ/日本語のURLエンコードを確認してください。"]
             else []))%list
  end.

(** What [diagnose] does with a response that arrived. *)
Definition diagnoseResponse (url : string) (res : Response) : M string :=
  let ct := default EmptyString (contentType res) in
  let* extra :=
    if isAzureBlob url then
      let* info := parseAzureUrl url in
      ret (azureTips info (status res))
    else ret EmptyString in
  if negb (ok res) then
    let azureTip := if isAzureBlob url then default EmptyString (azureHintFor (status res)) else EmptyString in
    ret (Str.trim ("HTTP " +:+ Str.ofN (status res) +:+ " " +:+ statusText res +:+ " " +:+ extra
                   +:+ " " +:+ azureTip))
  else if negb (audioRe ct) then
    let azureTip := if isAzureBlob url then "（Azure: Content-Typeが audio/* で提供されているか確認）" else EmptyString in
    ret (Str.trim ("取得成功ですが Content-Type=" +:+ ct +:+ " です。audio/* を返す必要があります " +:+ azureTip))
  else ret ("OK: Content-Type=" +:+ ct).

(** The [catch] of [diagnose]. *)
Definition diagnoseFailed (url : string) : string :=
  let tip := if isAzureBlob url then default EmptyString (azureHintFor 0) else EmptyString in
  Str.trim ("取得に失敗（CORS/ネットワーク）。"
            +:+ (if Str.isEmpty tip
                 then "Dropboxは ?dl=1 / Google Driveは uc?export=download&id=... にしてください"
                 else tip)).

(** One run of [diagnose]: the requests made, in order, and the messages
    set with [setDiagMsg], in order.  [url] is the prop of the card,
    [pageProtocol] is [location.protocol] where [location] exists. *)
Definition diagnose (url : option string) (pageProtocol : option string)
    (head get : option Response) : M (list Method * list string) :=
  match url with
  | None => ret ([], ["URLが未設定です"])
  | Some url =>
      if Str.isEmpty url then ret ([], ["URLが未設定です"])
      else if (match pageProtocol with Some p => String.eqb p "https:" | None => false end)
              && Str.startsWith "http:" url
      then ret ([], ["HTTPSページ上でHTTP音源はブロックされます（混在コンテンツ）。URLをhttpsにしてください"])
      else
        match head with
        | Some res =>
            if ok res then
              let* msg := diagnoseResponse url res in
              ret ([HEAD], ["診断中…"; msg])
            else
              match get with
              | Some res' =>
                  let* msg := diagnoseResponse url res' in
                  ret ([HEAD; GET], ["診断中…"; msg])
              | None => ret ([HEAD; GET], ["診断中…"; diagnoseFailed url])
              end
        | None =>
            match get with
            | Some res' =>
                let* msg := diagnoseResponse url res' in
                ret ([HEAD; GET], ["診断中…"; msg])
            | None => ret ([HEAD; GET], ["診断中…"; diagnoseFailed url])
            end
        end
  end.

End Azure.

(** The response that [diagnose] judges, when it makes requests. *)
Definition judged (head get : option Response) : option Response :=
  match head with
  | Some res => if ok res then Some res else get
  | None => get
  end.

(** Whether [diagnose] stops before any request. *)
Definition notFetched (url : option string) (pageProtocol : option string) : bool :=
  match url with
  | None => true
  | Some u =>
      Str.isEmpty u
      || (match pageProtocol with Some p => String.eqb p "https:" | None => false end)
         && Str.startsWith "http:" u
  end.

(** ** Notions for the statements about the store *)

(** [s'] differs from [s] at most in the entry of [d]. *)
Definition untouchedBut (d : string) (s s' : AppState) : Prop :=
  settings s' = settings s /\ forall d', d' <> d -> entries s' !! d' = entries s !! d'.

(** [meals[k]] *)
Definition getMeal (m : Meals) (k : MealKey) : string :=
  match k with
  | Kbreakfast => breakfast m
  | Klunch => lunch m
  | Kdinner => dinner m
  | Knotes => notes m
  end.

(** A state with some history: two dates visited, a weight entered. *)
Definition sampleState : AppState :=
  mutate (fst (selectDates Calendar.getDay ["2025-09-08"; "2025-09-09"] freshState tickingWorld))
         "2025-09-08" (setWeight "63.5").

Definition sampleWorld : World :=
  snd (selectDates Calendar.getDay ["2025-09-08"; "2025-09-09"] freshState tickingWorld).

(** * Properties *)

(** ** The model on the inputs of the source's self-tests *)

Example trim_spaces : Str.trim "  a b  " = "a b".
Proof. reflexivity. Qed.

(** Trailing ideographic space (U+3000). *)
Example trim_ideographic :
  Str.trim (" x" +:+ String (ascii_of_N 0xE3) (String (ascii_of_N 0x80) (String (ascii_of_N 0x80) " ")))
  = "x".
Proof. reflexivity. Qed.

Example normalize_drive_query_id :
  normalizeMediaUrl "https://drive.google.com/open?id=ABCDEF"
  = "https://drive.google.com/uc?export=download&id=ABCDEF".
Proof. vm_compute. reflexivity. Qed.

Example normalize_other_host :
  normalizeMediaUrl "https://example.com/t.mp3" = "https://example.com/t.mp3".
Proof. vm_compute. reflexivity. Qed.

Example normalize_plain_relative : normalizeMediaUrl "audio/mon.mp3" = "audio/mon.mp3".
Proof. vm_compute. reflexivity. Qed.

Example weekday_known_monday : weekdayStr Calendar.getDay "2025-09-08" = Some "月".
Proof. vm_compute. reflexivity. Qed.

Example weekday_epoch : weekdayStr Calendar.getDay "1970-01-01" = Some "木".
Proof. vm_compute. reflexivity. Qed.

Example weekday_invalid : weekdayStr Calendar.getDay "2025-02-30" = None.
Proof. vm_compute. reflexivity. Qed.

Example json_object :
  Json.parse (" { " +:+ String Json.quote ("a" +:+ String Json.quote (" : [1, -20, true, null], "
              +:+ String Json.quote ("b" +:+ String Json.quote ": {} }"))))
  = Some (JObj [("a", JArr [JNum 1; JNum (-20); JBool true; JNull]); ("b", JObj [])]).
Proof. vm_compute. reflexivity. Qed.

Example json_syntax_error : Json.parse "{oops" = None.
Proof. vm_compute. reflexivity. Qed.

(** ** Entry factory *)

Lemma advance_0 (w : World) : advance 0 w = w.
Proof. destruct w; unfold advance; simpl. by rewrite !Nat.add_0_r. Qed.

Lemma advance_S (k : nat) (w : World) :
  advance k (snd (Math_random36 (snd (Date_now w)))) = advance (S k) w.
Proof. destruct w; unfold advance; simpl. f_equal; lia. Qed.

(** What [tpl.map] of [buildEntry] computes, item by item. *)
Lemma mapiM_newItem (d : string) (tpl : list string) :
  forall (i0 : nat) (w : World),
    mapiM (newItem d) i0 tpl w =
    (imap (fun k t => mkItem (itemId d (i0 + k) (dateNow w (nowCalls w + k))
                                     (mathRandom36 w (randomCalls w + k))) t false) tpl,
     advance (length tpl) w).
Proof.
  induction tpl as [|t tpl IH]; intros i0 w.
  - simpl. unfold ret. by rewrite advance_0.
  - cbn [mapiM]. unfold bind at 1. unfold newItem at 1. unfold bind, ret.
    cbn [Date_now Math_random36]. rewrite IH. cbn [imap length dateNow mathRandom36 nowCalls randomCalls].
    rewrite !Nat.add_0_r. f_equal.
    + f_equal. apply imap_ext. intros k x _. simpl.
      by rewrite !Nat.add_succ_r.
    + unfold advance; simpl. f_equal; lia.
Qed.

Lemma imap_items_text (l : list string) :
  forall f : nat -> string, map text (imap (fun k t => mkItem (f k) t false) l) = l.
Proof.
  induction l as [|t l IH]; intros f; [done|].
  simpl. f_equal. apply (IH (fun k => f (S k))).
Qed.

Lemma buildEntry_eq (getDay : string -> option nat) (d : string) (s : Settings) (w : World) :
  let tpl := default [] (templates s !! propKey (weekdayStr getDay d)) in
  buildEntry getDay d s w =
  (mkEntry d "" blankMeals
     (imap (fun k t => mkItem (itemId d k (dateNow w (nowCalls w + k))
                                      (mathRandom36 w (randomCalls w + k))) t false) tpl),
   advance (length tpl) w).
Proof.
  intros tpl. unfold buildEntry, bind, ret. fold tpl. by rewrite mapiM_newItem.
Qed.

Lemma buildEntry_texts (getDay : string -> option nat) (d : string) (s : Settings) (w : World) :
  map text (checklist (fst (buildEntry getDay d s w)))
  = default [] (templates s !! propKey (weekdayStr getDay d)).
Proof. rewrite buildEntry_eq. apply imap_items_text. Qed.

(** C2: the entry built for [d] under [s] has one unchecked item per line of
    the weekday's template (none when the template is absent), carries the
    date [d], and has blank weight and blank meals. *)
Theorem buildEntry_shape (getDay : string -> option nat) (d : string) (s : Settings) (w : World) :
  let e := fst (buildEntry getDay d s w) in
  length (checklist e) = length (default [] (templates s !! propKey (weekdayStr getDay d)))
  /\ Forall (fun c => done c = false) (checklist e)
  /\ map text (checklist e) = default [] (templates s !! propKey (weekdayStr getDay d))
  /\ date e = d
  /\ weight e = ""
  /\ meals e = mkMeals "" "" "" "".
Proof.
  intros e. split; [|split; [|split; [apply buildEntry_texts|]]];
    subst e; rewrite buildEntry_eq; cbn [fst checklist date weight meals].
  - by rewrite length_imap.
  - apply Forall_forall. intros c Hc.
    apply elem_of_lookup_imap in Hc as (k & t & -> & _). reflexivity.
  - done.
Qed.

(** ** Identifiers of fresh items *)

Lemma string_of_uint_digits (d : Decimal.uint) :
  Str.forallb Str.isDigit (NilEmpty.string_of_uint d) = true.
Proof. induction d; simpl; auto. Qed.

Lemma ofNat_inj (i j : nat) : Str.ofNat i = Str.ofNat j -> i = j.
Proof.
  unfold Str.ofNat. intros H.
  apply (f_equal NilEmpty.uint_of_string) in H. rewrite !NilEmpty.usu in H.
  injection H as H. apply (f_equal Nat.of_uint) in H.
  by rewrite !DecimalNat.Unsigned.of_to in H.
Qed.

Lemma ofN_inj (i j : N) : Str.ofN i = Str.ofN j -> i = j.
Proof.
  unfold Str.ofN. intros H.
  apply (f_equal NilEmpty.uint_of_string) in H. rewrite !NilEmpty.usu in H.
  injection H as H. apply (f_equal N.of_uint) in H.
  by rewrite !DecimalN.Unsigned.of_to in H.
Qed.

(** Two strings that start with digits and a dash agree on the digits and
    on the rest. *)
Lemma digits_dash_inj (u v a b : string) :
  Str.forallb Str.isDigit u = true -> Str.forallb Str.isDigit v = true ->
  u +:+ "-" +:+ a = v +:+ "-" +:+ b -> u = v /\ a = b.
Proof.
  revert v. induction u as [|c u IH]; intros [|c' v] Hu Hv H; simpl in *.
  - by injection H as H.
  - injection H as <- _. apply andb_prop in Hv as [Hc _]. discriminate Hc.
  - injection H as -> _. apply andb_prop in Hu as [Hc _]. discriminate Hc.
  - injection H as -> H. apply andb_prop in Hu as [_ Hu]. apply andb_prop in Hv as [_ Hv].
    destruct (IH v Hu Hv H) as [-> ->]. done.
Qed.

Lemma itemId_inj (d : string) (i j : nat) (t t' : N) (r r' : string) :
  itemId d i t r = itemId d j t' r' -> i = j /\ t = t' /\ r = r'.
Proof.
  unfold itemId. intros H. apply String.app_inj in H. injection H as H.
  apply digits_dash_inj in H as [Hi H]; try apply string_of_uint_digits.
  apply digits_dash_inj in H as [Ht H]; try apply string_of_uint_digits.
  auto using ofNat_inj, ofN_inj.
Qed.

(** Within one call the identifiers are pairwise distinct. *)
Lemma buildEntry_ids_NoDup (getDay : string -> option nat) (d : string) (s : Settings) (w : World) :
  NoDup (map id (checklist (fst (buildEntry getDay d s w)))).
Proof.
  rewrite buildEntry_eq. cbn [fst checklist].
  apply NoDup_alt. intros i j x Hi Hj.
  rewrite list_lookup_fmap in Hi, Hj.
  destruct (imap _ _ !! i) as [ci|] eqn:Ei; [|done].
  destruct (imap _ _ !! j) as [cj|] eqn:Ej; [|done].
  rewrite list_lookup_imap in Ei, Ej.
  destruct (_ !! i) as [ti|]; [|done]. destruct (_ !! j) as [tj|]; [|done].
  simpl in *. simplify_eq. simpl in *.
  by apply itemId_inj in Hi as (-> & _).
Qed.

(** C3, as the code has it: two builds for the same date and settings give
    the same texts in the same order; an identifier of the first build is
    an identifier of the second only if, at one position, both builds read
    the same clock value and drew the same random suffix.  So the
    identifier sets are disjoint whenever the two readings differ at every
    position. *)
Theorem buildEntry_twice (getDay : string -> option nat) (d : string) (s : Settings) (w w' : World) :
  let tpl := default [] (templates s !! propKey (weekdayStr getDay d)) in
  let e1 := fst (buildEntry getDay d s w) in
  let e2 := fst (buildEntry getDay d s w') in
  map text (checklist e1) = map text (checklist e2)
  /\ ((forall k, k < length tpl ->
         (dateNow w (nowCalls w + k), mathRandom36 w (randomCalls w + k))
         <> (dateNow w' (nowCalls w' + k), mathRandom36 w' (randomCalls w' + k))) ->
      forall x, x ∈ map id (checklist e1) -> x ∉ map id (checklist e2)).
Proof.
  intros tpl e1 e2. split.
  - subst e1 e2. by rewrite !buildEntry_texts.
  - intros Hfresh x H1 H2. subst e1 e2. rewrite buildEntry_eq in H1, H2.
    cbn [fst checklist] in H1, H2. fold tpl in H1, H2.
    apply list_elem_of_fmap in H1 as (c1 & -> & H1), H2 as (c2 & Heq & H2).
    apply elem_of_lookup_imap in H1 as (k1 & t1 & -> & Hk1).
    apply elem_of_lookup_imap in H2 as (k2 & t2 & -> & Hk2).
    simpl in Heq. apply itemId_inj in Heq as (-> & Ht & Hr).
    apply (Hfresh k2); [by eapply lookup_lt_Some|]. congruence.
Qed.

(** C3, as stated, fails: when the clock stands still and the random source
    repeats, a second build right after the first yields the very same
    identifiers. *)
Lemma buildEntry_ids_collide :
  let b1 := buildEntry Calendar.getDay "2025-09-08" defaultSettings stillWorld in
  let b2 := buildEntry Calendar.getDay "2025-09-08" defaultSettings (snd b1) in
  map id (checklist (fst b1)) = map id (checklist (fst b2))
  /\ "2025-09-08-0-1757289600000-k3x9q2" ∈ map id (checklist (fst b1))
  /\ "2025-09-08-0-1757289600000-k3x9q2" ∈ map id (checklist (fst b2)).
Proof.
  vm_compute. repeat split; apply list_elem_of_here.
Qed.

Lemma buildEntry_twice_witness :
  "2025-09-08-0-1757289600000-r0"
    ∉ map id (checklist (fst (buildEntry Calendar.getDay "2025-09-08" defaultSettings
                                         (advance 3 tickingWorld)))).
Proof.
  apply (proj2 (buildEntry_twice Calendar.getDay "2025-09-08" defaultSettings
                                 tickingWorld (advance 3 tickingWorld))).
  - intros k _ H. injection H as H _. simpl in H. lia.
  - vm_compute. apply list_elem_of_here.
Defined.

(** ** State store *)

Lemma ensureEntry_present (getDay : string -> option nat) (state : AppState) (d : string)
    (w : World) (e : Entry) :
  entries state !! d = Some e -> ensureEntry getDay state d w = (state, w).
Proof. intros H. unfold ensureEntry. by rewrite H. Qed.

Lemma ensureEntry_absent (getDay : string -> option nat) (state : AppState) (d : string) (w : World) :
  entries state !! d = None ->
  ensureEntry getDay state d w =
  (mkState (<[d := fst (buildEntry getDay d (settings state) w)]> (entries state)) (settings state),
   snd (buildEntry getDay d (settings state) w)).
Proof.
  intros H. unfold ensureEntry. rewrite H. unfold bind, ret.
  by destruct (buildEntry getDay d (settings state) w).
Qed.

Lemma ensureEntry_lookup (getDay : string -> option nat) (state : AppState) (d : string) (w : World) :
  is_Some (entries (fst (ensureEntry getDay state d w)) !! d).
Proof.
  destruct (entries state !! d) as [e|] eqn:E.
  - rewrite (ensureEntry_present _ _ _ _ e E). simpl. by rewrite E.
  - rewrite (ensureEntry_absent _ _ _ _ E). simpl. rewrite lookup_insert_eq. by eexists.
Qed.

(** C1: [ensureEntry] leaves a state that already has an entry for [d]
    untouched, reads nothing from the environment then, gives the same
    state when applied a second time, and keeps whatever was written into
    the entry of [d] between the two applications. *)
Theorem ensureEntry_idempotent (getDay : string -> option nat) (state : AppState) (d : string) (w : World) :
  (forall e, entries state !! d = Some e -> ensureEntry getDay state d w = (state, w))
  /\ (forall s1 w1, ensureEntry getDay state d w = (s1, w1) ->
        ensureEntry getDay s1 d w1 = (s1, w1)
        /\ forall f : Entry -> Entry,
             ensureEntry getDay (mutate s1 d f) d w1 = (mutate s1 d f, w1)
             /\ entries (mutate s1 d f) !! d = f <$> entries s1 !! d).
Proof.
  split; [intros e; apply ensureEntry_present|].
  intros s1 w1 H.
  destruct (ensureEntry_lookup getDay state d w) as [e He]. rewrite H in He. simpl in He.
  split; [by eapply ensureEntry_present|].
  intros f. split.
  - apply (ensureEntry_present _ _ _ _ (f e)). simpl. by rewrite lookup_alter_eq, He.
  - simpl. apply lookup_alter_eq.
Qed.

(** The self-test of the source: an edited weight survives a second
    [ensureEntry]. *)
Lemma ensureEntry_idempotent_witness :
  let s1 := fst (ensureEntry Calendar.getDay freshState "2025-09-09" tickingWorld) in
  let w1 := snd (ensureEntry Calendar.getDay freshState "2025-09-09" tickingWorld) in
  let s2 := mutate s1 "2025-09-09" (setWeight "63.5") in
  ensureEntry Calendar.getDay s2 "2025-09-09" w1 = (s2, w1)
  /\ weight <$> entries s2 !! "2025-09-09" = Some "63.5".
Proof.
  intros s1 w1 s2.
  destruct (ensureEntry_idempotent Calendar.getDay freshState "2025-09-09" tickingWorld) as [_ H].
  destruct (H s1 w1) as [_ H'].
  - subst s1 w1. by destruct (ensureEntry _ _ _ _).
  - destruct (H' (setWeight "63.5")) as [H1 H2]. split; [exact H1|].
    vm_compute. reflexivity.
Defined.

(** C4, as stated, fails for the toggle: with no entry for the date,
    [toggleChecklist] returns at its guard and no entry is created; and
    [addChecklistItem] returns before [ensureEntry] on a blank text. *)
Lemma toggleChecklist_absent_creates_nothing :
  entries freshState !! "2025-09-08" = None
  /\ toggleChecklist Calendar.getDay freshState "2025-09-08" "2025-09-08-0-1757289600000-r0"
                     freshState tickingWorld
     = (freshState, tickingWorld)
  /\ addChecklistItem Calendar.getDay "2025-09-08" (Some "   ") freshState tickingWorld
     = (freshState, tickingWorld).
Proof. repeat split. Qed.

(** C4, as the code has it.  With no entry for [d] in the latest state,
    [updateEntry], [updateMeals], [removeChecklistItem] and, for a text
    that is not blank, [addChecklistItem] first create the entry that
    [buildEntry] makes from the current settings and then apply their
    change to it; [toggleChecklist] does so only when the rendered
    snapshot has an entry for [d] and otherwise changes nothing;
    [addChecklistItem] changes nothing on a blank text. *)
Theorem mutations_ensure_entry (getDay : string -> option nat) (prev : AppState) (d : string) (w : World) :
  entries prev !! d = None ->
  let e := fst (buildEntry getDay d (settings prev) w) in
  let w1 := snd (buildEntry getDay d (settings prev) w) in
  let put (e' : Entry) := mkState (<[d := e']> (entries prev)) (settings prev) in
  (forall partial, updateEntry getDay d partial prev w = (put (spread e partial), w1))
  /\ (forall data k v,
        updateMeals getDay data d k v prev w =
        (put (mkEntry (date e) (weight e)
                (setMeal (match entries data !! d with Some x => meals x | None => blankMeals end) k v)
                (checklist e)), w1))
  /\ (forall target,
        removeChecklistItem getDay d target prev w =
        (put (mkEntry (date e) (weight e) (meals e)
                (List.filter (fun c => negb (String.eqb (id c) target)) (checklist e))), w1))
  /\ (forall raw, Str.isEmpty (Str.trim (default "" raw)) = false ->
        exists suffix w2,
          addChecklistItem getDay d raw prev w =
          (put (mkEntry (date e) (weight e) (meals e)
                  (checklist e ++ [mkItem (d +:+ "-" +:+ suffix) (Str.trim (default "" raw)) false])), w2))
  /\ (forall raw, Str.isEmpty (Str.trim (default "" raw)) = true ->
        addChecklistItem getDay d raw prev w = (prev, w))
  /\ (forall data target x, entries data !! d = Some x ->
        toggleChecklist getDay data d target prev w =
        (put (mkEntry (date e) (weight e) (meals e) (map (toggleItem target) (checklist x))), w1))
  /\ (forall data target, entries data !! d = None ->
        toggleChecklist getDay data d target prev w = (prev, w)).
Proof.
  intros Habs e w1 put.
  assert (Hupd : forall partial, updateEntry getDay d partial prev w = (put (spread e partial), w1)).
  { intros partial. unfold updateEntry, deepCopy, bind, ret.
    rewrite (ensureEntry_absent _ _ _ _ Habs). cbn [entries settings].
    by rewrite alter_insert_eq. }
  repeat split.
  - exact Hupd.
  - intros data k v. unfold updateMeals. by rewrite Hupd.
  - intros target. unfold removeChecklistItem, deepCopy, bind, ret.
    rewrite (ensureEntry_absent _ _ _ _ Habs). cbn [entries settings].
    by rewrite alter_insert_eq.
  - intros raw Hraw. unfold addChecklistItem, deepCopy, bind, ret. rewrite Hraw.
    rewrite (ensureEntry_absent _ _ _ _ Habs). cbn [entries settings]. fold w1 e.
    destruct (crypto_randomUUID w1) as [[u|] w2] eqn:Eu.
    + destruct (Str.isEmpty u).
      * destruct (Math_random36 w2) as [r w3]. exists r, w3. by rewrite alter_insert_eq.
      * exists u, w2. by rewrite alter_insert_eq.
    + destruct (Math_random36 w2) as [r w3]. exists r, w3. by rewrite alter_insert_eq.
  - intros raw Hraw. unfold addChecklistItem. by rewrite Hraw.
  - intros data target x Hx. unfold toggleChecklist. rewrite Hx. by rewrite Hupd.
  - intros data target Hx. unfold toggleChecklist. by rewrite Hx.
Qed.

Lemma mutations_ensure_entry_witness :
  fst (updateEntry Calendar.getDay "2025-09-08" (mkPartial None (Some "63.5") None None)
                   freshState tickingWorld)
  = mkState (<["2025-09-08" :=
               spread (fst (buildEntry Calendar.getDay "2025-09-08" defaultSettings tickingWorld))
                      (mkPartial None (Some "63.5") None None)]> ∅) defaultSettings.
Proof.
  assert (H : entries freshState !! "2025-09-08" = None) by reflexivity.
  destruct (mutations_ensure_entry Calendar.getDay freshState "2025-09-08" tickingWorld H)
    as [Hupd _].
  rewrite Hupd. reflexivity.
Defined.

(** ** Settings *)

Lemma weekday_in_set (day : string) : day ∈ weekdayLabels -> {[day]} ∪ weekdaySet = weekdaySet.
Proof.
  intros H. apply subseteq_union_1_L, singleton_subseteq_l.
  unfold weekdaySet. by apply elem_of_list_to_set.
Qed.

Lemma defaultSettings_sevenKeys : sevenKeys defaultSettings.
Proof.
  unfold sevenKeys, defaultSettings, weekdaySet, weekdayLabels. cbn [weeklyMusic templates].
  rewrite !dom_list_to_map_L. simpl. split; set_solver.
Qed.

(** C8: the default settings have exactly the seven weekday keys in both
    maps, and setting the music URL of a weekday, replacing the template
    of a weekday and changing the goal weight keep exactly those keys. *)
Theorem sevenKeys_preserved :
  sevenKeys defaultSettings
  /\ forall (prev : AppState) (day : string),
       sevenKeys (settings prev) -> day ∈ weekdayLabels ->
       (forall rawUrl, sevenKeys (settings (setWeeklyMusic day rawUrl prev)))
       /\ (forall next, sevenKeys (settings (setSettings (updateList (settings prev) day next) prev)))
       /\ (forall g, sevenKeys (settings (setGoalWeight g prev))).
Proof.
  split; [apply defaultSettings_sevenKeys|].
  intros prev day [Hm Ht] Hday. unfold sevenKeys. repeat split; simpl; try done.
  - rewrite dom_insert_L, Hm. by apply weekday_in_set.
  - rewrite dom_insert_L, Ht. by apply weekday_in_set.
Qed.

Lemma sevenKeys_preserved_witness :
  sevenKeys (settings (setWeeklyMusic "月" " https://www.dropbox.com/s/abc/mon.mp3?dl=0 " freshState))
  /\ weeklyMusic (settings (setWeeklyMusic "月" " https://www.dropbox.com/s/abc/mon.mp3?dl=0 " freshState))
       !! "月" = Some "https://www.dropbox.com/s/abc/mon.mp3?dl=1".
Proof.
  split.
  - destruct sevenKeys_preserved as [H0 H]. apply (H freshState "月" H0).
    unfold weekdayLabels. apply list_elem_of_further, list_elem_of_here.
  - vm_compute. reflexivity.
Defined.

(** ** Media URL normalizer: the scenarios *)

(** C7: the Dropbox share link comes out with [dl=1], the Drive link comes
    out as the direct-download form with [id=FILEID], the empty string
    stays empty and the relative path is returned as it is. *)
Theorem normalizeMediaUrl_scenarios :
  (Str.includes "dl=1" (normalizeMediaUrl "https://www.dropbox.com/s/abc/mon.mp3?dl=0")
   || Str.includes "raw=1" (normalizeMediaUrl "https://www.dropbox.com/s/abc/mon.mp3?dl=0")) = true
  /\ normalizeMediaUrl "https://www.dropbox.com/s/abc/mon.mp3?dl=0"
     = "https://www.dropbox.com/s/abc/mon.mp3?dl=1"
  /\ normalizeMediaUrl "https://drive.google.com/file/d/FILEID/view?usp=sharing"
     = "https://drive.google.com/uc?export=download&id=FILEID"
  /\ Str.includes "id=FILEID"
       (normalizeMediaUrl "https://drive.google.com/file/d/FILEID/view?usp=sharing") = true
  /\ normalizeMediaUrl EmptyString = EmptyString
  /\ normalizeMediaUrl "/audio/mon.mp3" = "/audio/mon.mp3".
Proof. vm_compute. repeat split. Qed.

(** ** Persistence and import *)

(** C10: whatever the stored string parses to is returned as it is, with no
    check of its shape; a stored [null] gives the null value, which is not
    the default state; the default state is returned when the key is
    absent, when the stored string is empty and when parsing throws. *)
Theorem loadData_verbatim (JSON_parse : string -> option JValue) :
  (forall raw v, Str.isEmpty raw = false -> JSON_parse raw = Some v ->
     loadData JSON_parse (Some raw) = v)
  /\ (JSON_parse "null" = Some JNull ->
      loadData JSON_parse (Some "null") = JNull /\ JNull <> stateValue freshState)
  /\ loadData JSON_parse None = stateValue freshState
  /\ loadData JSON_parse (Some EmptyString) = stateValue freshState
  /\ (forall raw, JSON_parse raw = None -> loadData JSON_parse (Some raw) = stateValue freshState).
Proof.
  split; [|split; [|split; [|split]]]; try reflexivity.
  - intros raw v Hne Hv. unfold loadData. by rewrite Hne, Hv.
  - intros Hnull. split; [|discriminate]. unfold loadData. simpl. by rewrite Hnull.
  - intros raw Hraw. unfold loadData. rewrite Hraw. by destruct (Str.isEmpty raw).
Qed.

Lemma loadData_verbatim_witness :
  loadData Json.parse (Some "null") = JNull
  /\ loadData Json.parse (Some "[1, 2]") = JArr [JNum 1; JNum 2].
Proof.
  destruct (loadData_verbatim Json.parse) as (H1 & H2 & _). split.
  - apply H2. vm_compute. reflexivity.
  - apply H1; vm_compute; reflexivity.
Defined.

(** C9: when the contents of the file do not parse, the import shows the
    failure message and the current data stay as they were; contents that
    parse replace the data and show nothing. *)
Theorem importJSON_atomic (JSON_parse : string -> option JValue) (contents : string) (ui : UI) :
  (JSON_parse contents = None ->
     data (importJSON JSON_parse contents ui) = data ui
     /\ alerts (importJSON JSON_parse contents ui) = (alerts ui ++ [importFailed])%list)
  /\ (forall parsed, JSON_parse contents = Some parsed ->
        importJSON JSON_parse contents ui = mkUI parsed (alerts ui)).
Proof.
  unfold importJSON. split.
  - intros H. by rewrite H.
  - intros parsed H. by rewrite H.
Qed.

Lemma importJSON_atomic_witness :
  data (importJSON Json.parse "{oops" (mkUI (stateValue freshState) [])) = stateValue freshState
  /\ alerts (importJSON Json.parse "{oops" (mkUI (stateValue freshState) [])) = [importFailed].
Proof.
  apply (proj1 (importJSON_atomic Json.parse "{oops" (mkUI (stateValue freshState) []))).
  vm_compute. reflexivity.
Defined.

(** ** Background caching *)

(** C5 fails on the code: the page posts a message of type [CACHE_URL]
    carrying [url], the worker's listener acts only on type [CACHE_URLS]
    and reads [urls]; so for every URL the listener caches nothing, while
    it would cache a URL sent in the shape it expects. *)
Theorem precache_message_ignored (url : string) :
  SW.onMessage (precacheMessage url) = []
  /\ SW.onMessage (JObj [("type", JStr "CACHE_URLS"); ("urls", JArr [JStr url])]) = [url].
Proof. split; reflexivity. Qed.

Lemma precacheTodayMusic_posts :
  precacheTodayMusic Calendar.getDay
    (setWeeklyMusic "月" "https://example.com/monday.mp3" freshState) "2025-09-08"
  = Some (precacheMessage "https://example.com/monday.mp3").
Proof. vm_compute. reflexivity. Qed.

(** ** Strings: trimming *)

Ltac ascii_cases c := destruct c as [[] [] [] [] [] [] [] []].

Lemma append_cons (c : ascii) (s t : string) : String c s +:+ t = String c (s +:+ t).
Proof. reflexivity. Qed.

Lemma append_nil_l (t : string) : EmptyString +:+ t = t.
Proof. reflexivity. Qed.

Lemma append_nil_r (s : string) : s +:+ EmptyString = s.
Proof. induction s as [|c s IH]; [done|]. by rewrite append_cons, IH. Qed.

Lemma append_assoc (a b c : string) : (a +:+ b) +:+ c = a +:+ (b +:+ c).
Proof. induction a as [|x a IH]; [done|]. by rewrite !append_cons, IH. Qed.

Lemma forallb_app (p : ascii -> bool) (a b : string) :
  Str.forallb p (a +:+ b) = Str.forallb p a && Str.forallb p b.
Proof.
  induction a as [|x a IH]; [done|]. rewrite append_cons. simpl. by rewrite IH, andb_assoc.
Qed.

Lemma forallb_impl (p q : ascii -> bool) (s : string) :
  (forall c, p c = true -> q c = true) -> Str.forallb p s = true -> Str.forallb q s = true.
Proof.
  intros Hpq. induction s as [|c s IH]; simpl; [done|].
  intros [Hc Hs]%andb_prop. by rewrite (Hpq c Hc), IH.
Qed.

Lemma graphic_not_ws (c : ascii) :
  Str.isGraphic c = true ->
  Str.ws1 c = false /\ (forall c2, Str.ws2 c c2 = false) /\ (forall c2 c3, Str.ws3 c c2 c3 = false).
Proof. ascii_cases c; intros H; try discriminate H; repeat split. Qed.

Lemma trimStart_graphic (c : ascii) (s : string) :
  Str.isGraphic c = true -> Str.trimStart (String c s) = String c s.
Proof.
  intros (H1 & H2 & H3)%graphic_not_ws. cbn [Str.trimStart]. rewrite H1.
  destruct s as [|c2 [|c3 s]]; [done|by rewrite H2|by rewrite H2, H3].
Qed.

Lemma trimEnd_graphic (s : string) : Str.forallb Str.isGraphic s = true -> Str.trimEnd s = s.
Proof.
  induction s as [|c s IH]; [done|]. cbn [Str.forallb Str.trimEnd].
  intros [Hc Hs]%andb_prop. unfold Str.blank. rewrite (trimStart_graphic c s Hc). simpl.
  by rewrite IH.
Qed.

Lemma trim_graphic (s : string) : Str.forallb Str.isGraphic s = true -> Str.trim s = s.
Proof.
  intros H. unfold Str.trim. destruct s as [|c s]; [done|].
  pose proof H as [Hc _]%andb_prop. rewrite (trimStart_graphic c s Hc). by apply trimEnd_graphic.
Qed.

Lemma trimStart_stripWs (s : string) :
  Str.trimStart s = match Str.stripWs s with Some r => Str.trimStart r | None => s end.
Proof.
  destruct s as [|c1 [|c2 [|c3 s]]]; cbn [Str.trimStart Str.stripWs]; try done.
  - by destruct (Str.ws1 c1).
  - destruct (Str.ws1 c1); [done|]. by destruct (Str.ws2 c1 c2).
  - destruct (Str.ws1 c1); [done|]. destruct (Str.ws2 c1 c2); [done|]. by destruct (Str.ws3 c1 c2 c3).
Qed.

Lemma stripWs_length (s r : string) :
  Str.stripWs s = Some r -> String.length r < String.length s.
Proof.
  destruct s as [|c1 [|c2 [|c3 s]]]; cbn [Str.stripWs]; try done.
  - destruct (Str.ws1 c1); [|done]. intros [= <-]. simpl. lia.
  - destruct (Str.ws1 c1); [intros [= <-]; simpl; lia|].
    destruct (Str.ws2 c1 c2); [|done]. intros [= <-]. simpl. lia.
  - destruct (Str.ws1 c1); [intros [= <-]; simpl; lia|].
    destruct (Str.ws2 c1 c2); [intros [= <-]; simpl; lia|].
    destruct (Str.ws3 c1 c2 c3); [|done]. intros [= <-]. simpl. lia.
Qed.

Lemma stripWs_app (s r x : string) :
  Str.stripWs s = Some r -> Str.stripWs (s +:+ x) = Some (r +:+ x).
Proof.
  destruct s as [|c1 [|c2 [|c3 s]]]; rewrite ?append_cons, ?append_nil_l;
    cbn [Str.stripWs]; try done.
  - destruct (Str.ws1 c1); [|done]. by intros [= <-].
  - destruct (Str.ws1 c1); [by intros [= <-]|].
    destruct (Str.ws2 c1 c2); [|done]. by intros [= <-].
  - destruct (Str.ws1 c1); [by intros [= <-]|].
    destruct (Str.ws2 c1 c2); [by intros [= <-]|].
    destruct (Str.ws3 c1 c2 c3); [|done]. by intros [= <-].
Qed.

Lemma by_length (P : string -> Prop) :
  (forall s, (forall r, String.length r < String.length s -> P r) -> P s) -> forall s, P s.
Proof.
  intros H s. remember (String.length s) as n eqn:E. revert s E.
  induction n as [n IH] using lt_wf_ind. intros s ->. apply H. intros r Hr. by apply (IH _ Hr).
Qed.

Lemma stripWs_trimStart (s : string) : Str.stripWs (Str.trimStart s) = None.
Proof.
  induction s as [s IH] using by_length. rewrite trimStart_stripWs.
  destruct (Str.stripWs s) as [r|] eqn:E; [|done]. apply IH. by apply stripWs_length.
Qed.

Lemma trimStart_fixed (s : string) : Str.stripWs s = None -> Str.trimStart s = s.
Proof. intros H. by rewrite trimStart_stripWs, H. Qed.

Lemma trimStart_app_blank (a b : string) :
  Str.blank a = true -> Str.trimStart (a +:+ b) = Str.trimStart b.
Proof.
  unfold Str.blank. induction a as [a IH] using by_length. intros Ha.
  rewrite trimStart_stripWs in Ha. destruct (Str.stripWs a) as [r|] eqn:E.
  - rewrite trimStart_stripWs, (stripWs_app _ _ b E). apply IH; [by apply stripWs_length|done].
  - by destruct a.
Qed.

Lemma blank_app (a b : string) :
  Str.blank a = true -> Str.blank b = true -> Str.blank (a +:+ b) = true.
Proof. intros Ha Hb. unfold Str.blank. by rewrite trimStart_app_blank. Qed.

Lemma trimEnd_decomp (s : string) :
  exists x, s = Str.trimEnd s +:+ x /\ Str.blank x = true.
Proof.
  induction s as [|c s (x & Hx & Hb)]; [by exists EmptyString|].
  cbn [Str.trimEnd]. destruct (Str.blank (String c s)) eqn:E.
  - by exists (String c s).
  - exists x. split; [|done]. by rewrite append_cons, <- Hx.
Qed.

Lemma trimEnd_idem (s : string) : Str.trimEnd (Str.trimEnd s) = Str.trimEnd s.
Proof.
  induction s as [|c s IH]; [done|]. cbn [Str.trimEnd].
  destruct (Str.blank (String c s)) eqn:E; [done|].
  cbn [Str.trimEnd]. rewrite IH.
  destruct (Str.blank (String c (Str.trimEnd s))) eqn:E'; [|done].
  destruct (trimEnd_decomp s) as (x & Hx & Hb).
  pose proof (blank_app _ _ E' Hb) as H. rewrite append_cons, <- Hx in H. congruence.
Qed.

Lemma stripWs_trimEnd (s : string) : Str.stripWs s = None -> Str.stripWs (Str.trimEnd s) = None.
Proof.
  intros H. destruct (Str.stripWs (Str.trimEnd s)) as [r|] eqn:E; [|done].
  destruct (trimEnd_decomp s) as (x & Hx & _).
  apply (stripWs_app _ _ x) in E. rewrite <- Hx in E. congruence.
Qed.

Lemma trim_idem (s : string) : Str.trim (Str.trim s) = Str.trim s.
Proof.
  unfold Str.trim.
  rewrite (trimStart_fixed (Str.trimEnd (Str.trimStart s))).
  - apply trimEnd_idem.
  - apply stripWs_trimEnd, stripWs_trimStart.
Qed.

(** ** Strings: cutting at separators *)

Lemma break_app (stop : ascii -> bool) (a b : string) :
  Str.forallb (fun c => negb (stop c)) a = true ->
  match b with EmptyString => True | String c _ => stop c = true end ->
  Str.break stop (a +:+ b) = (a, b).
Proof.
  intros Ha Hb. induction a as [|x a IH].
  - rewrite append_nil_l. destruct b as [|c b]; [done|]. simpl. by rewrite Hb.
  - rewrite append_cons. simpl in *. apply andb_prop in Ha as [Hx Ha].
    apply negb_true_iff in Hx. by rewrite Hx, (IH Ha).
Qed.

Lemma split_not_nil (sep : ascii) (s : string) : Str.split sep s <> [].
Proof.
  destruct s as [|c s]; [done|]. simpl.
  destruct (Str.split sep s); [done|]. by destruct (Ascii.eqb c sep).
Qed.

Lemma split_nosep (sep : ascii) (a : string) :
  Str.forallb (fun c => negb (Ascii.eqb c sep)) a = true -> Str.split sep a = [a].
Proof.
  induction a as [|x a IH]; [done|]. simpl. intros [Hx Ha]%andb_prop.
  apply negb_true_iff in Hx. by rewrite (IH Ha), Hx.
Qed.

Lemma split_app_sep (sep : ascii) (a b : string) :
  Str.forallb (fun c => negb (Ascii.eqb c sep)) a = true ->
  Str.split sep (a +:+ String sep b) = a :: Str.split sep b.
Proof.
  induction a as [|x a IH].
  - intros _. rewrite append_nil_l. simpl.
    destruct (Str.split sep b) eqn:E; [by apply split_not_nil in E|].
    by rewrite Ascii.eqb_refl.
  - rewrite append_cons. simpl. intros [Hx Ha]%andb_prop.
    apply negb_true_iff in Hx. by rewrite (IH Ha), Hx.
Qed.

(** ** URL: form encoding *)

Lemma encodeByte_chars (c : ascii) : Str.forallb encodedChar (URL.encodeByte c) = true.
Proof. ascii_cases c; vm_compute; reflexivity. Qed.

Lemma encodeComponent_chars (s : string) : Str.forallb encodedChar (URL.encodeComponent s) = true.
Proof.
  induction s as [|c s IH]; [done|]. simpl. by rewrite forallb_app, encodeByte_chars, IH.
Qed.

Lemma encodeByteOk_all (c : ascii) : encodeByteOk c = true.
Proof. ascii_cases c; vm_compute; reflexivity. Qed.

Lemma percentDecode_plain (c : ascii) (t : string) :
  Ascii.eqb c "%" = false -> URL.percentDecode (String c t) = String c (URL.percentDecode t).
Proof. intros H. destruct t as [|h1 [|h2 t]]; simpl; by rewrite ?H. Qed.

Lemma decode_encodeByte (c : ascii) (rest : string) :
  URL.decodeComponent (URL.encodeByte c +:+ rest) = String c (URL.decodeComponent rest).
Proof.
  pose proof (encodeByteOk_all c) as H. unfold encodeByteOk in H.
  unfold URL.decodeComponent, URL.encodeByte.
  destruct (URL.unreserved c).
  - apply andb_prop in H as [H1%negb_true_iff H2%negb_true_iff].
    rewrite append_cons, append_nil_l. cbn [URL.plusToSpace]. rewrite H1.
    by apply percentDecode_plain.
  - destruct (Ascii.eqb c " ") eqn:Esp.
    + apply Ascii.eqb_eq in Esp as ->. rewrite append_cons, append_nil_l.
      cbn [URL.plusToSpace]. rewrite Ascii.eqb_refl. by apply percentDecode_plain.
    + rewrite !append_cons, append_nil_l. cbn [URL.plusToSpace].
      apply andb_prop in H as [[H1%negb_true_iff H2%negb_true_iff]%andb_prop H3].
      rewrite H1, H2. cbn [URL.percentDecode]. rewrite Ascii.eqb_refl.
      destruct (URL.hexVal _) as [a|]; [|done]. destruct (URL.hexVal _) as [b|]; [|done].
      by apply Ascii.eqb_eq in H3 as ->.
Qed.

Lemma decode_encode (s : string) : URL.decodeComponent (URL.encodeComponent s) = s.
Proof.
  induction s as [|c s IH]; [done|]. simpl. by rewrite decode_encodeByte, IH.
Qed.

Lemma parsePair_serializePair (nv : string * string) :
  URL.parsePair (URL.serializePair nv) = nv.
Proof.
  destruct nv as [n v]. unfold URL.parsePair, URL.serializePair. cbn [fst snd].
  rewrite (append_cons "=" EmptyString), append_nil_l, break_app.
  - by rewrite !decode_encode.
  - eapply forallb_impl; [|apply encodeComponent_chars].
    intros c [_ H]%andb_prop. exact H.
  - reflexivity.
Qed.

Lemma serializePair_not_empty (nv : string * string) :
  Str.isEmpty (URL.serializePair nv) = false.
Proof. unfold URL.serializePair. by destruct (URL.encodeComponent (fst nv)). Qed.

Lemma serializePair_no_amp (nv : string * string) :
  Str.forallb (fun c => negb (Ascii.eqb c "&")) (URL.serializePair nv) = true.
Proof.
  unfold URL.serializePair. rewrite !forallb_app. simpl.
  assert (H : forall s, Str.forallb (fun c => negb (Ascii.eqb c "&")) (URL.encodeComponent s) = true).
  { intros s. eapply forallb_impl; [|apply encodeComponent_chars].
    intros c [[_ H]%andb_prop _]%andb_prop. exact H. }
  by rewrite !H.
Qed.

Lemma split_serializeQs (l : URL.Params) :
  l <> [] -> Str.split "&" (URL.serializeQs l) = map URL.serializePair l.
Proof.
  induction l as [|nv l IH]; [done|]. intros _. destruct l as [|nv' l].
  - simpl. apply split_nosep, serializePair_no_amp.
  - change (URL.serializeQs (nv :: nv' :: l))
      with (URL.serializePair nv +:+ String "&" (URL.serializeQs (nv' :: l))).
    rewrite split_app_sep by apply serializePair_no_amp. by rewrite IH.
Qed.

(** The parser undoes the serializer. *)
Lemma parseQs_serializeQs (l : URL.Params) : URL.parseQs (URL.serializeQs l) = l.
Proof.
  destruct l as [|nv l]; [done|]. unfold URL.parseQs. rewrite split_serializeQs by done.
  generalize (nv :: l). clear. intros l. induction l as [|nv l IH]; [done|].
  simpl. rewrite serializePair_not_empty. simpl. by rewrite parsePair_serializePair, IH.
Qed.

Lemma serializeQs_not_empty (l : URL.Params) : l <> [] -> Str.isEmpty (URL.serializeQs l) = false.
Proof.
  destruct l as [|nv [|nv' l]]; [done| |]; intros _.
  - apply serializePair_not_empty.
  - change (URL.serializeQs (nv :: nv' :: l))
      with (URL.serializePair nv +:+ String "&" (URL.serializeQs (nv' :: l))).
    by destruct (URL.serializePair nv).
Qed.

Lemma serializeQs_chars (l : URL.Params) : Str.forallb URL.queryChar (URL.serializeQs l) = true.
Proof.
  assert (Hc : forall s, Str.forallb URL.queryChar (URL.encodeComponent s) = true).
  { intros s. eapply forallb_impl; [|apply encodeComponent_chars].
    intros c [[H _]%andb_prop _]%andb_prop. exact H. }
  assert (Hp : forall nv, Str.forallb URL.queryChar (URL.serializePair nv) = true).
  { intros nv. unfold URL.serializePair. rewrite !forallb_app, !Hc. reflexivity. }
  induction l as [|nv l IH]; [done|]. destruct l as [|nv' l]; [apply Hp|].
  change (URL.serializeQs (nv :: nv' :: l))
    with (URL.serializePair nv +:+ String "&" (URL.serializeQs (nv' :: l))).
  rewrite forallb_app, Hp. simpl. exact IH.
Qed.

(** ** URL: search parameters *)

Lemma has_set (name value : string) (l : URL.Params) : URL.has name (URL.set name value l) = true.
Proof.
  induction l as [|[n v] l IH]; simpl.
  - by rewrite String.eqb_refl.
  - destruct (String.eqb n name) eqn:E; simpl; rewrite E; [done|exact IH].
Qed.

Lemma has_filter_other (name other : string) (l : URL.Params) :
  String.eqb other name = false ->
  URL.has name (List.filter (fun nv => negb (String.eqb (fst nv) other)) l) = URL.has name l.
Proof.
  intros Hne. induction l as [|[n v] l IH]; [done|]. simpl.
  destruct (String.eqb n other) eqn:E; simpl.
  - apply String.eqb_eq in E as ->. by rewrite Hne.
  - by rewrite IH.
Qed.

Lemma has_set_other (name other value : string) (l : URL.Params) :
  String.eqb other name = false -> URL.has name (URL.set other value l) = URL.has name l.
Proof.
  intros Hne. induction l as [|[n v] l IH]; simpl.
  - by rewrite Hne.
  - destruct (String.eqb n other) eqn:E; simpl.
    + by rewrite has_filter_other.
    + by rewrite IH.
Qed.

Lemma filter_filter_name (name : string) (l : URL.Params) :
  List.filter (fun nv => negb (String.eqb (fst nv) name))
    (List.filter (fun nv => negb (String.eqb (fst nv) name)) l)
  = List.filter (fun nv => negb (String.eqb (fst nv) name)) l.
Proof.
  induction l as [|[n v] l IH]; [done|]. simpl.
  destruct (String.eqb n name) eqn:E; simpl; [done|]. by rewrite E, IH.
Qed.

Lemma set_idem (name value : string) (l : URL.Params) :
  URL.set name value (URL.set name value l) = URL.set name value l.
Proof.
  induction l as [|[n v] l IH]; simpl.
  - by rewrite String.eqb_refl.
  - destruct (String.eqb n name) eqn:E; simpl; rewrite E.
    + by rewrite filter_filter_name.
    + by rewrite IH.
Qed.

Lemma set_not_nil (name value : string) (l : URL.Params) : URL.set name value l <> [].
Proof. destruct l as [|[n v] l]; simpl; [done|]. by destruct (String.eqb n name). Qed.

Lemma filter_ascii (p : string * string -> bool) (l : URL.Params) :
  List.forallb URL.asciiPair l = true -> List.forallb URL.asciiPair (List.filter p l) = true.
Proof.
  induction l as [|nv l IH]; [done|]. simpl. intros [H1 H2]%andb_prop.
  destruct (p nv); simpl; [by rewrite H1, IH|by apply IH].
Qed.

Lemma set_ascii (name value : string) (l : URL.Params) :
  URL.isAscii name = true -> URL.isAscii value = true ->
  List.forallb URL.asciiPair l = true -> List.forallb URL.asciiPair (URL.set name value l) = true.
Proof.
  intros Hn Hv. induction l as [|[n v] l IH]; simpl.
  - unfold URL.asciiPair. simpl. by rewrite Hn, Hv.
  - intros [Hnv Hl]%andb_prop. destruct (String.eqb n name) eqn:E; simpl.
    + apply andb_prop in Hnv as [Hn' _]. simpl in Hn'.
      unfold URL.asciiPair at 1. simpl. rewrite Hn', Hv. simpl. by apply filter_ascii.
    + by rewrite Hnv, IH.
Qed.

(** ** URL: parsing what was serialized *)

Lemma hostChar_facts (c : ascii) :
  URL.hostChar c = true ->
  Str.mem c "/?#" = false /\ Str.lowerChar c = c /\ Str.isGraphic c = true.
Proof. ascii_cases c; intros H; try discriminate H; repeat split. Qed.

Lemma pathChar_facts (c : ascii) :
  URL.pathChar c = true -> Str.mem c "?#" = false /\ Str.isGraphic c = true.
Proof. ascii_cases c; intros H; try discriminate H; repeat split. Qed.

Lemma queryChar_facts (c : ascii) :
  URL.queryChar c = true -> Ascii.eqb "#" c = false /\ Str.isGraphic c = true.
Proof. ascii_cases c; intros H; try discriminate H; repeat split. Qed.

Lemma plainQueryChar_facts (c : ascii) :
  plainQueryChar c = true ->
  URL.queryChar c = true /\ Ascii.eqb c "&" = false /\ Ascii.eqb c "+" = false
  /\ Ascii.eqb c "%" = false /\ (Str.code c <? 128)%N = true.
Proof. ascii_cases c; intros H; try discriminate H; repeat split. Qed.

Lemma toLowerCase_host (h : string) : Str.forallb URL.hostChar h = true -> Str.toLowerCase h = h.
Proof.
  induction h as [|c h IH]; [done|]. simpl. intros [Hc Hh]%andb_prop.
  apply hostChar_facts in Hc as (_ & -> & _). by rewrite IH.
Qed.

Lemma splitScheme_http (rest : string) :
  URL.splitScheme ("http" +:+ "://" +:+ rest) = Some ("http", rest).
Proof. reflexivity. Qed.

Lemma splitScheme_https (rest : string) :
  URL.splitScheme ("https" +:+ "://" +:+ rest) = Some ("https", rest).
Proof. reflexivity. Qed.

Lemma wf_scheme (u : URL.t) :
  URL.wf u = true -> URL.scheme u = "http" \/ URL.scheme u = "https".
Proof.
  unfold URL.wf. intros [[[[H _]%andb_prop _]%andb_prop _]%andb_prop _]%andb_prop.
  apply orb_prop in H as [H|H]; apply String.eqb_eq in H; auto.
Qed.

Lemma wf_parts (u : URL.t) :
  URL.wf u = true ->
  URL.hostOk (URL.hostname u) = true /\ URL.pathOk (URL.pathname u) = true
  /\ match URL.query u with Some q => URL.queryOk q | None => true end = true
  /\ match URL.fragment u with Some f => URL.fragmentOk f | None => true end = true.
Proof.
  unfold URL.wf. intros [[[[_ H1]%andb_prop H2]%andb_prop H3]%andb_prop H4]%andb_prop. auto.
Qed.

Lemma hostOk_chars (h : string) : URL.hostOk h = true -> Str.forallb URL.hostChar h = true.
Proof. unfold URL.hostOk. by intros [[[_ H]%andb_prop _]%andb_prop _]%andb_prop. Qed.

Lemma pathOk_chars (p : string) :
  URL.pathOk p = true -> Str.forallb URL.pathChar p = true /\ exists p', p = String "/" p'.
Proof.
  unfold URL.pathOk.
  intros [[[[H0 H]%andb_prop _]%andb_prop _]%andb_prop _]%andb_prop. split; [done|].
  destruct p as [|c p]; [done|].
  change (Str.startsWith "/" (String c p))
    with (if ascii_dec "/" c then String.prefix EmptyString p else false) in H0.
  destruct (ascii_dec "/" c) as [<-|]; [by eexists|done].
Qed.

Lemma parse_tail (q f : option string) :
  match q with Some q => URL.queryOk q | None => true end = true ->
  (let '(q', r3) := URL.splitQuery (afterPath q f) in (q', URL.splitFragment r3)) = (q, f).
Proof.
  unfold afterPath, URL.splitQuery, URL.splitFragment. destruct q as [q|]; intros Hq.
  - rewrite (append_cons "?" EmptyString), append_nil_l, append_cons.
    rewrite break_app.
    + destruct f; [|done]. by rewrite (append_cons "#" EmptyString), append_nil_l.
    + unfold URL.queryOk in Hq. apply andb_prop in Hq as [Hq _].
      eapply forallb_impl; [|exact Hq]. intros c Hc.
      apply queryChar_facts in Hc as [-> _]. reflexivity.
    + by destruct f.
  - rewrite append_nil_l. destruct f; [|done].
    by rewrite (append_cons "#" EmptyString), append_nil_l.
Qed.

Lemma afterPath_head (q f : option string) :
  match afterPath q f with EmptyString => True | String c _ => Str.mem c "?#" = true end.
Proof. unfold afterPath. by destruct q, f. Qed.

(** [new URL(url.toString())] gives [url] back. *)
Lemma parse_toString (u : URL.t) : URL.wf u = true -> URL.parse (URL.toString u) = Some u.
Proof.
  intros Hwf. pose proof (wf_scheme u Hwf) as Hs.
  pose proof (wf_parts u Hwf) as (Hh & Hp & Hq & Hf).
  destruct u as [sch host path q f]. cbn [URL.scheme URL.hostname URL.pathname URL.query URL.fragment] in *.
  pose proof (hostOk_chars _ Hh) as Hhc. pose proof (pathOk_chars _ Hp) as (Hpc & p' & ->).
  unfold URL.toString. cbn [URL.scheme URL.hostname URL.pathname URL.query URL.fragment].
  fold (afterPath q f).
  assert (Hsplit : URL.splitScheme (sch +:+ "://" +:+ host +:+ String "/" p' +:+ afterPath q f)
                   = Some (sch, host +:+ String "/" p' +:+ afterPath q f)).
  { destruct Hs as [-> | ->]; [apply splitScheme_http|apply splitScheme_https]. }
  unfold URL.parse. rewrite Hsplit.
  rewrite break_app.
  - rewrite break_app.
    + pose proof (parse_tail q f Hq) as Ht.
      destruct (URL.splitQuery (afterPath q f)) as [q' r3].
      injection Ht as -> ->. rewrite (toLowerCase_host _ Hhc). cbn [Str.isEmpty].
      by rewrite Hwf.
    + eapply forallb_impl; [|exact Hpc]. intros c Hc.
      apply pathChar_facts in Hc as [-> _]. reflexivity.
    + apply afterPath_head.
  - eapply forallb_impl; [|exact Hhc]. intros c Hc.
    apply hostChar_facts in Hc as (-> & _). reflexivity.
  - rewrite append_cons. reflexivity.
Qed.

Lemma parse_wf (raw : string) (u : URL.t) : URL.parse raw = Some u -> URL.wf u = true.
Proof.
  unfold URL.parse. destruct (URL.splitScheme raw) as [[sch r0]|]; [|done].
  destruct (Str.break _ r0) as [host r1]. destruct (Str.break _ r1) as [path r2].
  destruct (URL.splitQuery r2) as [q r3].
  destruct (URL.wf _) eqn:E; [|done]. by intros [= <-].
Qed.

Lemma toString_graphic (u : URL.t) : URL.wf u = true -> Str.forallb Str.isGraphic (URL.toString u) = true.
Proof.
  intros Hwf. pose proof (wf_scheme u Hwf) as Hs.
  pose proof (wf_parts u Hwf) as (Hh & Hp & Hq & Hf).
  apply hostOk_chars in Hh. apply pathOk_chars in Hp as [Hp _].
  unfold URL.toString. rewrite !forallb_app.
  rewrite (forallb_impl _ _ _ (fun c H => proj2 (proj2 (hostChar_facts c H))) Hh).
  rewrite (forallb_impl _ _ _ (fun c H => proj2 (pathChar_facts c H)) Hp).
  assert (Hq' : Str.forallb Str.isGraphic
                  match URL.query u with Some q => "?" +:+ q | None => EmptyString end = true).
  { destruct (URL.query u) as [q|]; [|done]. rewrite forallb_app. simpl.
    unfold URL.queryOk in Hq. apply andb_prop in Hq as [Hq _].
    apply (forallb_impl _ _ _ (fun c H => proj2 (queryChar_facts c H)) Hq). }
  assert (Hf' : Str.forallb Str.isGraphic
                  match URL.fragment u with Some f => "#" +:+ f | None => EmptyString end = true).
  { destruct (URL.fragment u) as [f|]; [|done]. rewrite forallb_app. simpl.
    apply (forallb_impl _ _ _ (fun c H => proj2 (queryChar_facts c H)) Hf). }
  rewrite Hq', Hf'. by destruct Hs as [-> | ->].
Qed.

(** Normalizing a serialized URL of the fragment goes through the parsed
    branch. *)
Lemma normalize_toString (u : URL.t) :
  URL.wf u = true -> normalizeMediaUrl (URL.toString u) = normalizeParsed u.
Proof.
  intros Hwf. unfold normalizeMediaUrl.
  rewrite (trim_graphic _ (toString_graphic u Hwf)), (parse_toString u Hwf).
  unfold URL.toString. by destruct (wf_scheme u Hwf) as [-> | ->].
Qed.

(** ** Media URL normalizer: normalizing twice *)

Lemma searchParams_ascii (u : URL.t) :
  URL.wf u = true -> List.forallb URL.asciiPair (URL.searchParams u) = true.
Proof.
  intros (_ & _ & Hq & _)%wf_parts. unfold URL.searchParams.
  destruct (URL.query u) as [q|]; [|done]. unfold URL.queryOk in Hq.
  by apply andb_prop in Hq as [_ Hq].
Qed.

Lemma wf_updateQuery (u : URL.t) (l : URL.Params) :
  URL.wf u = true -> l <> [] -> List.forallb URL.asciiPair l = true ->
  URL.wf (URL.updateQuery u l) = true /\ URL.searchParams (URL.updateQuery u l) = l.
Proof.
  intros Hwf Hl Hascii. pose proof (wf_parts u Hwf) as (Hh & Hp & _ & Hf).
  unfold URL.updateQuery, URL.searchParams, URL.wf.
  cbn [URL.scheme URL.hostname URL.pathname URL.query URL.fragment].
  rewrite (serializeQs_not_empty l Hl), parseQs_serializeQs. split; [|done].
  unfold URL.queryOk. rewrite serializeQs_chars, parseQs_serializeQs, Hascii, Hh, Hp, Hf.
  by destruct (wf_scheme u Hwf) as [-> | ->].
Qed.

Lemma decode_plain (s : string) :
  Str.forallb plainQueryChar s = true -> URL.decodeComponent s = s.
Proof.
  unfold URL.decodeComponent. induction s as [|c s IH]; [done|].
  cbn [Str.forallb URL.plusToSpace]. intros [Hc Hs]%andb_prop.
  apply plainQueryChar_facts in Hc as (_ & _ & -> & Hpc & _).
  by rewrite (percentDecode_plain _ _ Hpc), (IH Hs).
Qed.

Lemma parseQs_download (id : string) :
  Str.forallb plainQueryChar id = true ->
  URL.parseQs ("export=download&id=" +:+ id) = [("export", "download"); ("id", id)].
Proof.
  intros Hid. unfold URL.parseQs.
  change ("export=download&id=" +:+ id) with ("export=download" +:+ String "&" ("id=" +:+ id)).
  rewrite split_app_sep by reflexivity.
  rewrite split_nosep.
  - change ("id=" +:+ id) with (String "i" (String "d" (String "=" id))).
    cbn [List.filter Str.isEmpty negb map]. f_equal. f_equal.
    unfold URL.parsePair. cbn [Str.break Ascii.eqb Bool.eqb]. by rewrite (decode_plain id Hid).
  - rewrite forallb_app. cbn [andb Str.forallb Ascii.eqb Bool.eqb negb].
    eapply forallb_impl; [|exact Hid]. intros c Hc.
    by apply plainQueryChar_facts in Hc as (_ & -> & _).
Qed.

Lemma downloadUrl_toString (id : string) :
  URL.toString (downloadUrl id) = "https://drive.google.com/uc?export=download&id=" +:+ id.
Proof.
  unfold URL.toString, downloadUrl. cbn [URL.scheme URL.hostname URL.pathname URL.query URL.fragment].
  rewrite !append_assoc, append_nil_r. reflexivity.
Qed.

Lemma downloadUrl_wf (id : string) :
  Str.forallb plainQueryChar id = true -> URL.wf (downloadUrl id) = true.
Proof.
  intros Hid. unfold URL.wf, downloadUrl.
  cbn [URL.scheme URL.hostname URL.pathname URL.query URL.fragment].
  assert (Hq : URL.queryOk ("export=download&id=" +:+ id) = true).
  { unfold URL.queryOk. rewrite (parseQs_download id Hid), forallb_app.
    rewrite (forallb_impl _ _ _ (fun c H => proj1 (plainQueryChar_facts c H)) Hid).
    unfold URL.asciiPair, URL.isAscii. cbn [List.forallb fst snd].
    rewrite (forallb_impl _ _ _ (fun c H => proj2 (proj2 (proj2 (proj2 (plainQueryChar_facts c H))))) Hid).
    reflexivity. }
  rewrite Hq. reflexivity.
Qed.

Lemma downloadUrl_fixed (id : string) :
  Str.forallb plainQueryChar id = true -> Str.isEmpty id = false ->
  normalizeParsed (downloadUrl id) = URL.toString (downloadUrl id).
Proof.
  intros Hid Hne. rewrite downloadUrl_toString. unfold normalizeParsed, driveId, URL.searchParams.
  cbn [downloadUrl URL.hostname URL.pathname URL.query].
  rewrite (parseQs_download id Hid).
  change (Str.includes "dropbox.com" "drive.google.com") with false.
  change (Str.includes "drive.google.com" "drive.google.com") with true.
  change (matchFileD "/uc") with (@None string).
  change (URL.get "id" [("export", "download"); ("id", id)]) with (Some id).
  change (default EmptyString (Some id)) with id. cbv iota. by rewrite Hne.
Qed.

(** On the URLs in scope the normalizer answers a serialized URL of the
    fragment on which it changes nothing more. *)
Lemma normalizeParsed_fixed (u : URL.t) :
  URL.wf u = true ->
  Str.includes "dropbox.com" (URL.hostname u)
  || negb (Str.includes "drive.google.com" (URL.hostname u))
  || Str.forallb plainQueryChar (driveId u) = true ->
  exists u', URL.wf u' = true
             /\ normalizeParsed u = URL.toString u'
             /\ normalizeParsed u' = URL.toString u'.
Proof.
  intros Hwf Hscope. pose proof (searchParams_ascii u Hwf) as Hascii.
  unfold normalizeParsed at 1.
  destruct (Str.includes "dropbox.com" (URL.hostname u)) eqn:Edb.
  - destruct (URL.has "dl" (URL.searchParams u)) eqn:Edl;
      [|destruct (URL.has "raw" (URL.searchParams u)) eqn:Eraw]; cbn [negb].
    + destruct (wf_updateQuery u (URL.set "dl" "1" (URL.searchParams u)) Hwf)
        as [Hwf' Hsp]; [apply set_not_nil|by apply set_ascii|].
      eexists. split; [exact Hwf'|]. split; [reflexivity|].
      unfold normalizeParsed. rewrite Hsp. cbn [URL.updateQuery URL.hostname].
      by rewrite Edb, has_set, set_idem.
    + exists u. split; [done|]. split; [done|].
      unfold normalizeParsed. by rewrite Edb, Edl, Eraw.
    + destruct (wf_updateQuery u (URL.set "raw" "1" (URL.searchParams u)) Hwf)
        as [Hwf' Hsp]; [apply set_not_nil|by apply set_ascii|].
      eexists. split; [exact Hwf'|]. split; [reflexivity|].
      unfold normalizeParsed. rewrite Hsp. cbn [URL.updateQuery URL.hostname].
      rewrite Edb, has_set_other, Edl, has_set by reflexivity. reflexivity.
  - destruct (Str.includes "drive.google.com" (URL.hostname u)) eqn:Edr.
    + cbn [orb negb] in Hscope.
      destruct (Str.isEmpty (driveId u)) eqn:Eid; cbn [negb].
      * exists u. split; [done|]. split; [done|].
        unfold normalizeParsed. by rewrite Edb, Edr, Eid.
      * exists (downloadUrl (driveId u)). split; [by apply downloadUrl_wf|].
        split; [by rewrite downloadUrl_toString|by apply downloadUrl_fixed].
    + exists u. split; [done|]. split; [done|].
      unfold normalizeParsed. by rewrite Edb, Edr.
Qed.

Lemma parse_absolute (raw : string) (u : URL.t) :
  URL.parse raw = Some u ->
  Str.isEmpty raw = false /\ relativeRe raw = false /\ httpRe raw = true.
Proof.
  unfold URL.parse, httpRe. destruct (URL.splitScheme raw) as [p|] eqn:E; [|done]. intros _.
  destruct raw as [|c raw]; [done|]. split; [done|]. split; [|done].
  unfold relativeRe, Str.startsWith.
  destruct (ascii_dec c "/") as [->|Hs]; [done|].
  destruct (ascii_dec c ".") as [->|Hd]; [done|].
  cbn [String.prefix].
  destruct (ascii_dec "/" c) as [<-|_]; [done|].
  by destruct (ascii_dec "." c) as [<-|_].
Qed.




Example normalize_dropbox_encoded :
  normalizeMediaUrl " https://www.Dropbox.com/s/abc/mon.mp3?x=a/b&dl=0&dl=2 "
  = "https://www.dropbox.com/s/abc/mon.mp3?x=a%2Fb&dl=1".
Proof. vm_compute. reflexivity. Qed.

(** * Further properties *)

Example splitLines_examples :
  splitLines false ("A\n" +:+ "\nB") = ["A"; ""; "B"]
  /\ splitLines false "A\nnnB" = ["A"; "B"]
  /\ splitLines false "A\n" = ["A"; ""]
  /\ splitLines false "" = [""]
  /\ parseLines (joinLines ["A"; "B"; "C"]) = ["A"; "B"; "C"].
Proof. repeat split. Qed.

(** ** Store: what an operation leaves alone *)

Lemma state_eta (s : AppState) : mkState (entries s) (settings s) = s.
Proof. by destruct s. Qed.

Lemma entry_eta (e : Entry) : mkEntry (date e) (weight e) (meals e) (checklist e) = e.
Proof. by destruct e. Qed.

Lemma ensureEntry_settings (getDay : string -> option nat) (s : AppState) (d : string) (w : World) :
  settings (fst (ensureEntry getDay s d w)) = settings s.
Proof.
  destruct (entries s !! d) as [e|] eqn:E.
  - by rewrite (ensureEntry_present _ _ _ _ e E).
  - by rewrite (ensureEntry_absent _ _ _ _ E).
Qed.

Lemma ensureEntry_other (getDay : string -> option nat) (s : AppState) (d d' : string) (w : World) :
  d' <> d -> entries (fst (ensureEntry getDay s d w)) !! d' = entries s !! d'.
Proof.
  intros Hne. destruct (entries s !! d) as [e|] eqn:E.
  - by rewrite (ensureEntry_present _ _ _ _ e E).
  - rewrite (ensureEntry_absent _ _ _ _ E). simpl. by rewrite lookup_insert_ne.
Qed.

Lemma ensureEntry_keeps (getDay : string -> option nat) (s : AppState) (d d' : string) (w : World) (e : Entry) :
  entries s !! d' = Some e -> entries (fst (ensureEntry getDay s d w)) !! d' = Some e.
Proof.
  intros He. destruct (decide (d' = d)) as [->|Hne].
  - by rewrite (ensureEntry_present _ _ _ _ e He).
  - by rewrite ensureEntry_other.
Qed.

Lemma ensureEntry_untouched (getDay : string -> option nat) (s : AppState) (d : string) (w : World) :
  untouchedBut d s (fst (ensureEntry getDay s d w)).
Proof. split; [apply ensureEntry_settings|]. intros d' Hne. by apply ensureEntry_other. Qed.

Lemma alter_untouched (f : Entry -> Entry) (d : string) (s s1 : AppState) :
  untouchedBut d s s1 -> untouchedBut d s (mkState (alter f d (entries s1)) (settings s1)).
Proof.
  intros [Hs He]. split; [done|]. intros d' Hne. simpl.
  rewrite lookup_alter_ne by done. by apply He.
Qed.

Lemma updateEntry_untouched (getDay : string -> option nat) (d : string) (partial : PartialEntry)
    (prev : AppState) (w : World) :
  untouchedBut d prev (fst (updateEntry getDay d partial prev w)).
Proof.
  unfold updateEntry, deepCopy, bind, ret.
  pose proof (ensureEntry_untouched getDay prev d w) as H.
  destruct (ensureEntry getDay prev d w) as [s1 w1]. by apply alter_untouched.
Qed.

(** X1: navigation keeps what is there.  After the user has selected any
    sequence of dates, the settings and every entry that existed before
    are as they were, every selected date has an entry, and no other
    date got one. *)
Theorem selectDates_preserves (getDay : string -> option nat) (dates : list string)
    (s : AppState) (w : World) :
  let s' := fst (selectDates getDay dates s w) in
  settings s' = settings s
  /\ (forall d e, entries s !! d = Some e -> entries s' !! d = Some e)
  /\ (forall d, d ∈ dates -> is_Some (entries s' !! d))
  /\ (forall d, d ∉ dates -> entries s' !! d = entries s !! d).
Proof.
  revert s w. induction dates as [|d0 dates IH]; intros s w.
  - cbn. repeat split; try done. intros d Hd. by apply elem_of_nil in Hd.
  - cbn [selectDates]. unfold bind, selectDate, deepCopy.
    pose proof (ensureEntry_settings getDay s d0 w) as Hset.
    pose proof (ensureEntry_lookup getDay s d0 w) as Hnew.
    pose proof (fun d' e => ensureEntry_keeps getDay s d0 d' w e) as Hkeep.
    pose proof (fun d' => ensureEntry_other getDay s d0 d' w) as Hother.
    destruct (ensureEntry getDay s d0 w) as [s1 w1]. cbn [fst] in *.
    destruct (IH s1 w1) as (H1 & H2 & H3 & H4). cbn zeta in *.
    split; [congruence|]. split; [|split].
    + intros d e He. by apply H2, Hkeep.
    + intros d [->|Hd]%elem_of_cons.
      * destruct Hnew as [e He]. exists e. by apply H2.
      * by apply H3.
    + intros d Hd. apply not_elem_of_cons in Hd as [Hne Hd]. rewrite H4 by done. by apply Hother.
Qed.

Lemma sampleState_monday :
  exists e, entries sampleState !! "2025-09-08" = Some e
            /\ weight e = "63.5"
            /\ map id (checklist e)
               = ["2025-09-08-0-1757289600000-r0"; "2025-09-08-1-1757289600001-r1";
                  "2025-09-08-2-1757289600002-r2"].
Proof. eexists. vm_compute. repeat split. Qed.

Lemma sampleState_tuesday : exists e, entries sampleState !! "2025-09-09" = Some e.
Proof. eexists. vm_compute. reflexivity. Qed.

Lemma selectDates_preserves_witness :
  weight <$> entries (fst (selectDates Calendar.getDay ["2025-09-10"; "2025-09-08"; "2025-09-11"]
                                       sampleState sampleWorld)) !! "2025-09-08"
  = Some "63.5".
Proof.
  destruct (selectDates_preserves Calendar.getDay ["2025-09-10"; "2025-09-08"; "2025-09-11"]
              sampleState sampleWorld) as (_ & H & _).
  destruct sampleState_monday as (e & E & Hw & _).
  rewrite (H _ e E). cbn. by rewrite Hw.
Defined.

(** X2: every edit of the selected date is local to it.  Whatever the
    rendered snapshot and the environment, the handlers leave the settings
    and the entries of all other dates as they are. *)
Theorem edits_are_local (getDay : string -> option nat) (data prev : AppState) (d : string) (w : World) :
  (forall partial, untouchedBut d prev (fst (updateEntry getDay d partial prev w)))
  /\ (forall k v, untouchedBut d prev (fst (updateMeals getDay data d k v prev w)))
  /\ (forall target, untouchedBut d prev (fst (toggleChecklist getDay data d target prev w)))
  /\ (forall raw, untouchedBut d prev (fst (addChecklistItem getDay d raw prev w)))
  /\ (forall target, untouchedBut d prev (fst (removeChecklistItem getDay d target prev w)))
  /\ (forall confirmed, untouchedBut d prev (fst (resetToday getDay d confirmed prev w)))
  /\ untouchedBut d prev (fst (applyTemplateOfWeekday getDay data d prev w)).
Proof.
  assert (Hrefl : untouchedBut d prev prev) by (by split).
  split; [|split; [|split; [|split; [|split; [|split]]]]].
  - intros partial. apply updateEntry_untouched.
  - intros k v. apply updateEntry_untouched.
  - intros target. unfold toggleChecklist.
    destruct (entries data !! d); [apply updateEntry_untouched|exact Hrefl].
  - intros raw. unfold addChecklistItem, deepCopy, bind, ret.
    destruct (Str.isEmpty _); [exact Hrefl|].
    pose proof (ensureEntry_untouched getDay prev d w) as H.
    destruct (ensureEntry getDay prev d w) as [s1 w1].
    destruct (crypto_randomUUID w1) as [[u|] w2].
    + destruct (Str.isEmpty u); [destruct (Math_random36 w2)|]; by apply alter_untouched.
    + destruct (Math_random36 w2). by apply alter_untouched.
  - intros target. unfold removeChecklistItem, deepCopy, bind, ret.
    pose proof (ensureEntry_untouched getDay prev d w) as H.
    destruct (ensureEntry getDay prev d w) as [s1 w1]. by apply alter_untouched.
  - intros [|]; [|exact Hrefl]. unfold resetToday, deepCopy, bind, ret.
    destruct (buildEntry getDay d (settings prev) w) as [e w1]. split; [done|].
    intros d' Hne. simpl. by rewrite lookup_insert_ne.
  - unfold applyTemplateOfWeekday, bind.
    destruct (buildEntry getDay d (settings data) w) as [e w1]. apply updateEntry_untouched.
Qed.

Lemma edits_are_local_witness :
  entries (fst (removeChecklistItem Calendar.getDay "2025-09-09" "2025-09-09-0-1757289600003-r3"
                                    sampleState sampleWorld)) !! "2025-09-08"
  = entries sampleState !! "2025-09-08".
Proof.
  destruct (edits_are_local Calendar.getDay sampleState sampleState "2025-09-09" sampleWorld)
    as (_ & _ & _ & _ & H & _).
  apply (H "2025-09-09-0-1757289600003-r3"). discriminate.
Defined.

(** ** Store: the checklist operations on an existing entry *)

Lemma updateEntry_present (getDay : string -> option nat) (d : string) (partial : PartialEntry)
    (prev : AppState) (w : World) (e : Entry) :
  entries prev !! d = Some e ->
  updateEntry getDay d partial prev w
  = (mkState (<[d := spread e partial]> (entries prev)) (settings prev), w).
Proof.
  intros He. unfold updateEntry, deepCopy, bind, ret.
  rewrite (ensureEntry_present _ _ _ _ e He).
  f_equal. f_equal. apply map_eq. intros d'. destruct (decide (d' = d)) as [->|Hne].
  - by rewrite lookup_alter_eq, lookup_insert_eq, He.
  - by rewrite lookup_alter_ne, lookup_insert_ne.
Qed.

Lemma spread_checklist (e : Entry) (l : list ChecklistItem) :
  spread e (mkPartial None None None (Some l)) = mkEntry (date e) (weight e) (meals e) l.
Proof. reflexivity. Qed.

Lemma toggleItem_twice (target : string) (c : ChecklistItem) :
  toggleItem target (toggleItem target c) = c.
Proof.
  unfold toggleItem. destruct (String.eqb (id c) target) eqn:E; simpl; rewrite E.
  - rewrite negb_involutive. by destruct c.
  - done.
Qed.

(** X3: ticking a box.  On a date that has an entry in the rendered
    snapshot and in the latest state, [toggleChecklist] reads nothing
    from the environment; the new checklist is the one of the snapshot
    with [done] flipped on the items with the given id and on no other,
    ids, texts and order as in the snapshot; date, weight and meals are
    those of the latest state.  Ticking the same box again after the
    re-render puts the snapshot's checklist back, which gives the
    previous state back when the snapshot's checklist was the latest. *)
Theorem toggleChecklist_flips (getDay : string -> option nat) (data prev : AppState)
    (d target : string) (w : World) (e0 e : Entry) :
  entries data !! d = Some e0 ->
  entries prev !! d = Some e ->
  let r := toggleChecklist getDay data d target prev w in
  snd r = w
  /\ (exists e', entries (fst r) !! d = Some e'
        /\ date e' = date e /\ weight e' = weight e /\ meals e' = meals e
        /\ map id (checklist e') = map id (checklist e0)
        /\ map text (checklist e') = map text (checklist e0)
        /\ map done (checklist e')
           = map (fun c => if String.eqb (id c) target then negb (done c) else done c) (checklist e0))
  /\ toggleChecklist getDay (fst r) d target (fst r) w
     = (mkState (<[d := mkEntry (date e) (weight e) (meals e) (checklist e0)]> (entries prev))
                (settings prev), w)
  /\ (checklist e0 = checklist e ->
      toggleChecklist getDay (fst r) d target (fst r) w = (prev, w)).
Proof.
  intros He0 He r. subst r. unfold toggleChecklist. rewrite He0.
  rewrite (updateEntry_present _ _ _ _ _ e He), spread_checklist. cbn [fst snd entries].
  rewrite lookup_insert_eq. split; [done|]. split.
  { eexists. split; [reflexivity|]. cbn [date weight meals checklist].
    do 3 (split; [done|]).
    repeat split; rewrite map_map; apply map_ext; intros c; unfold toggleItem;
      by destruct (String.eqb (id c) target). }
  assert (Hagain :
    updateEntry getDay d
      (mkPartial None None None
         (Some (map (toggleItem target)
                  (checklist (mkEntry (date e) (weight e) (meals e)
                                (map (toggleItem target) (checklist e0)))))))
      (mkState (<[d := mkEntry (date e) (weight e) (meals e)
                         (map (toggleItem target) (checklist e0))]> (entries prev))
               (settings prev)) w
    = (mkState (<[d := mkEntry (date e) (weight e) (meals e) (checklist e0)]> (entries prev))
               (settings prev), w)).
  { erewrite updateEntry_present by apply lookup_insert_eq. f_equal.
    rewrite spread_checklist. cbn [date weight meals checklist entries settings].
    rewrite map_map, (map_ext _ (fun c => c)) by apply toggleItem_twice.
    by rewrite map_id, insert_insert_eq. }
  split; [exact Hagain|].
  intros Hsame. rewrite Hagain, Hsame, entry_eta, (insert_id _ _ _ He). f_equal. apply state_eta.
Qed.

Lemma toggleChecklist_flips_witness :
  let r := toggleChecklist Calendar.getDay sampleState "2025-09-08" "2025-09-08-1-1757289600001-r1"
                           sampleState sampleWorld in
  toggleChecklist Calendar.getDay (fst r) "2025-09-08" "2025-09-08-1-1757289600001-r1" (fst r) sampleWorld
  = (sampleState, sampleWorld)
  /\ map done <$> (checklist <$> entries (fst r) !! "2025-09-08") = Some [false; true; false].
Proof.
  intros r. split.
  - destruct sampleState_monday as (e & E & _).
    exact (proj2 (proj2 (proj2 (toggleChecklist_flips Calendar.getDay sampleState sampleState
                                  "2025-09-08" "2025-09-08-1-1757289600001-r1" sampleWorld e e E E)))
             eq_refl).
  - vm_compute. reflexivity.
Defined.

(** X4: adding an item.  On a date that has an entry, a text that is not
    blank appends exactly one item: the items before stay in place, the
    new one is last, carries the trimmed text, is unchecked, and its id
    starts with the date and a dash; the clock is not read. *)
Theorem addChecklistItem_appends (getDay : string -> option nat) (prev : AppState) (d : string)
    (raw : option string) (w : World) (e : Entry) :
  entries prev !! d = Some e ->
  Str.isEmpty (Str.trim (default "" raw)) = false ->
  let r := addChecklistItem getDay d raw prev w in
  exists item,
    entries (fst r) !! d
    = Some (mkEntry (date e) (weight e) (meals e) (checklist e ++ [item]))
    /\ text item = Str.trim (default "" raw)
    /\ done item = false
    /\ Str.startsWith (d +:+ "-") (id item) = true
    /\ nowCalls (snd r) = nowCalls w.
Proof.
  intros He Hraw r. subst r. unfold addChecklistItem, deepCopy, bind, ret. rewrite Hraw.
  rewrite (ensureEntry_present _ _ _ _ e He).
  assert (Hpre : forall x, Str.startsWith (d +:+ "-") (d +:+ "-" +:+ x) = true).
  { intros x. unfold Str.startsWith. rewrite <- append_assoc.
    generalize (d +:+ "-"). intros p. induction p as [|c p IH]; simpl; [by destruct x|].
    by destruct (ascii_dec c c). }
  unfold crypto_randomUUID, Math_random36.
  destruct (randomUUID w (uuidCalls w)) as [u|]; [destruct (Str.isEmpty u)|];
    cbn [fst snd entries nowCalls]; eexists; rewrite lookup_alter_eq, He;
    (split; [reflexivity|]); cbn [text done id]; repeat split; apply Hpre.
Qed.

Lemma addChecklistItem_appends_witness :
  exists item,
    checklist <$> entries (fst (addChecklistItem Calendar.getDay "2025-09-09" (Some "  テスト追加 ")
                                                 sampleState sampleWorld)) !! "2025-09-09"
    = (fun l => (l ++ [item])%list) <$> (checklist <$> entries sampleState !! "2025-09-09")
    /\ text item = "テスト追加".
Proof.
  destruct sampleState_tuesday as [e E].
  destruct (addChecklistItem_appends Calendar.getDay sampleState "2025-09-09" (Some "  テスト追加 ")
              sampleWorld e E) as (item & H1 & H2 & _); [reflexivity|].
  exists item. rewrite H1, E. split; [reflexivity|]. rewrite H2. reflexivity.
Defined.

Lemma filter_absent (target : string) (l : list ChecklistItem) :
  target ∉ map id l -> List.filter (fun c => negb (String.eqb (id c) target)) l = l.
Proof.
  induction l as [|c l IH]; [done|]. cbn [map List.filter]. intros H.
  apply not_elem_of_cons in H as [Hne Hl].
  destruct (String.eqb (id c) target) eqn:E.
  - apply String.eqb_eq in E. congruence.
  - cbn [negb]. by rewrite IH.
Qed.

Lemma filter_present_length (target : string) (l : list ChecklistItem) :
  NoDup (map id l) -> target ∈ map id l ->
  S (length (List.filter (fun c => negb (String.eqb (id c) target)) l)) = length l.
Proof.
  induction l as [|c l IH]; [by intros _ ?%elem_of_nil|].
  cbn [map List.filter length]. intros [Hc Hl]%NoDup_cons Hin.
  destruct (String.eqb (id c) target) eqn:E; cbn [negb].
  - apply String.eqb_eq in E. rewrite E in Hc. by rewrite (filter_absent _ _ Hc).
  - apply elem_of_cons in Hin as [->|Hin]; [by rewrite String.eqb_refl in E|].
    cbn [length]. by rewrite (IH Hl Hin).
Qed.

(** X5: removing an item.  On a date that has an entry,
    [removeChecklistItem] reads nothing from the environment, leaves no
    item with the given id, keeps the other items in their order and the
    other fields; an id that is not in the list changes nothing at all;
    when the ids are pairwise distinct and the id is in the list, the
    list gets shorter by exactly one. *)
Theorem removeChecklistItem_removes (getDay : string -> option nat) (prev : AppState)
    (d target : string) (w : World) (e : Entry) :
  entries prev !! d = Some e ->
  let r := removeChecklistItem getDay d target prev w in
  snd r = w
  /\ (exists l', entries (fst r) !! d = Some (mkEntry (date e) (weight e) (meals e) l')
        /\ (target ∉ map id l')
        /\ sublist l' (checklist e)
        /\ (forall c, c ∈ checklist e -> id c <> target -> c ∈ l')
        /\ (NoDup (map id (checklist e)) -> target ∈ map id (checklist e) ->
            S (length l') = length (checklist e)))
  /\ (target ∉ map id (checklist e) -> fst r = prev).
Proof.
  intros He r. subst r. unfold removeChecklistItem, deepCopy, bind, ret.
  rewrite (ensureEntry_present _ _ _ _ e He). cbn [fst snd entries settings].
  split; [done|]. split.
  - eexists. rewrite lookup_alter_eq, He. split; [reflexivity|].
    split; [|split; [|split]].
    + intros (c & Hid & Hc)%list_elem_of_fmap. apply list_elem_of_In, filter_In in Hc as [_ Hc].
      apply negb_true_iff, String.eqb_neq in Hc. congruence.
    + generalize (checklist e). intros l. induction l as [|c l IH]; [done|]. cbn [List.filter].
      destruct (negb _); [by apply sublist_skip|by apply sublist_cons].
    + intros c Hc Hne. apply list_elem_of_In, filter_In. split; [by apply list_elem_of_In|].
      by apply negb_true_iff, String.eqb_neq.
    + apply filter_present_length.
  - intros Habs. rewrite alter_id; [apply state_eta|].
    intros x Hx. rewrite He in Hx. injection Hx as <-.
    by rewrite (filter_absent _ _ Habs), entry_eta.
Qed.

Lemma removeChecklistItem_removes_witness :
  fst (removeChecklistItem Calendar.getDay "2025-09-08" "no-such-id" sampleState sampleWorld)
  = sampleState.
Proof.
  destruct sampleState_monday as (e & E & _ & Hids).
  apply (proj2 (proj2 (removeChecklistItem_removes Calendar.getDay sampleState "2025-09-08"
                         "no-such-id" sampleWorld e E))).
  rewrite Hids. intros H.
  repeat (apply elem_of_cons in H as [H|H]; [discriminate H|]). by apply elem_of_nil in H.
Defined.

Lemma buildEntry_fresh (getDay : string -> option nat) (d : string) (s : Settings) (w : World) :
  let e := fst (buildEntry getDay d s w) in
  date e = d /\ weight e = "" /\ meals e = blankMeals
  /\ Forall (fun c => done c = false) (checklist e)
  /\ map text (checklist e) = default [] (templates s !! propKey (weekdayStr getDay d)).
Proof.
  intros e. split; [|split; [|split; [|split; [|apply buildEntry_texts]]]];
    subst e; rewrite buildEntry_eq; cbn [fst checklist date weight meals]; try done.
  apply Forall_forall. intros c Hc.
  apply elem_of_lookup_imap in Hc as (k & t & -> & _). reflexivity.
Qed.

(** X6: resetting the day.  When the user confirms, the entry of the date
    is replaced, whatever it held (or if there was none), by a fresh one:
    blank weight, blank meals, the weekday template's lines, nothing
    checked.  When the user declines, nothing changes and nothing is read
    from the environment. *)
Theorem resetToday_discards (getDay : string -> option nat) (prev : AppState) (d : string) (w : World) :
  (exists e, entries (fst (resetToday getDay d true prev w)) !! d = Some e
     /\ date e = d /\ weight e = "" /\ meals e = blankMeals
     /\ Forall (fun c => done c = false) (checklist e)
     /\ map text (checklist e)
        = default [] (templates (settings prev) !! propKey (weekdayStr getDay d)))
  /\ resetToday getDay d false prev w = (prev, w).
Proof.
  split; [|done]. unfold resetToday, deepCopy, bind, ret.
  pose proof (buildEntry_fresh getDay d (settings prev) w) as H.
  destruct (buildEntry getDay d (settings prev) w) as [e w1]. exists e.
  cbn [fst entries]. by rewrite lookup_insert_eq.
Qed.

(** X7: reloading the weekday template.  On a date that has an entry, the
    date, the weight and the meals stay; the checklist is replaced by the
    lines of the weekday's template in the settings of the rendered
    snapshot, nothing checked. *)
Theorem applyTemplate_keeps_log (getDay : string -> option nat) (data prev : AppState) (d : string)
    (w : World) (e : Entry) :
  entries prev !! d = Some e ->
  exists e', entries (fst (applyTemplateOfWeekday getDay data d prev w)) !! d = Some e'
    /\ date e' = date e /\ weight e' = weight e /\ meals e' = meals e
    /\ Forall (fun c => done c = false) (checklist e')
    /\ map text (checklist e')
       = default [] (templates (settings data) !! propKey (weekdayStr getDay d)).
Proof.
  intros He. unfold applyTemplateOfWeekday, bind.
  pose proof (buildEntry_fresh getDay d (settings data) w) as (_ & _ & _ & Hd & Ht).
  destruct (buildEntry getDay d (settings data) w) as [b w1]. cbn [fst] in *.
  rewrite (updateEntry_present _ _ _ _ _ e He), spread_checklist. cbn [fst entries].
  rewrite lookup_insert_eq. eexists. split; [reflexivity|]. by cbn [date weight meals checklist].
Qed.

Lemma applyTemplate_keeps_log_witness :
  exists e', entries (fst (applyTemplateOfWeekday Calendar.getDay sampleState "2025-09-08"
                                                  sampleState sampleWorld)) !! "2025-09-08" = Some e'
    /\ weight e' = "63.5" /\ length (checklist e') = 3.
Proof.
  destruct sampleState_monday as (e & E & Hwe & _).
  destruct (applyTemplate_keeps_log Calendar.getDay sampleState sampleState "2025-09-08"
              sampleWorld e E) as (e' & H & _ & Hw & _ & _ & Ht).
  exists e'. split; [exact H|]. split.
  - by rewrite Hw.
  - rewrite <- (length_map text), Ht. vm_compute. reflexivity.
Defined.

(** X8: editing one field.  On a date that has an entry and with the
    snapshot up to date, [updateMeals] sets the one meal field, keeps the
    three others, the date, the weight and the checklist, and reads
    nothing from the environment; [updateEntry] with a weight alone
    changes the weight alone. *)
Theorem field_edits_are_narrow (getDay : string -> option nat) (prev : AppState) (d : string)
    (w : World) (e : Entry) :
  entries prev !! d = Some e ->
  (forall k v,
     snd (updateMeals getDay prev d k v prev w) = w
     /\ exists e', entries (fst (updateMeals getDay prev d k v prev w)) !! d = Some e'
          /\ getMeal (meals e') k = v
          /\ (forall k', k' <> k -> getMeal (meals e') k' = getMeal (meals e) k')
          /\ date e' = date e /\ weight e' = weight e /\ checklist e' = checklist e)
  /\ (forall v,
        updateEntry getDay d (mkPartial None (Some v) None None) prev w
        = (mkState (<[d := mkEntry (date e) v (meals e) (checklist e)]> (entries prev))
                   (settings prev), w)).
Proof.
  intros He. split.
  - intros k v. unfold updateMeals. rewrite He, (updateEntry_present _ _ _ _ _ e He).
    cbn [fst snd entries]. split; [done|]. rewrite lookup_insert_eq. eexists.
    split; [reflexivity|]. cbn. split; [by destruct k|]. split; [|done].
    intros k' Hk. by destruct k, k'.
  - intros v. by rewrite (updateEntry_present _ _ _ _ _ e He).
Qed.

Lemma field_edits_are_narrow_witness :
  weight <$> entries (fst (updateMeals Calendar.getDay sampleState "2025-09-08" Klunch "鶏むねサラダ"
                                       sampleState sampleWorld)) !! "2025-09-08" = Some "63.5".
Proof.
  destruct sampleState_monday as (e & E & Hwe & _).
  destruct (proj1 (field_edits_are_narrow Calendar.getDay sampleState "2025-09-08" sampleWorld e E)
              Klunch "鶏むねサラダ") as (_ & e' & -> & _ & _ & _ & Hw & _).
  cbn. by rewrite Hw, Hwe.
Defined.

(** ** Settings: the music URL of a weekday *)

Lemma idempotentScope_trim (x : string) : idempotentScope (Str.trim x) = idempotentScope x.
Proof. unfold idempotentScope. by rewrite trim_idem. Qed.

(** Within the scope the result of the normalizer is trimmed and is
    normalized to itself. *)
Lemma normalize_settled (x : string) :
  idempotentScope x = true ->
  Str.trim (normalizeMediaUrl x) = normalizeMediaUrl x
  /\ normalizeMediaUrl (normalizeMediaUrl x) = normalizeMediaUrl x.
Proof.
  unfold idempotentScope. intros Hscope.
  destruct (URL.parse (Str.trim x)) as [u|] eqn:Eparse.
  - pose proof (parse_absolute _ _ Eparse) as (Hne & Hrel & Hhttp).
    rewrite Hne, Hrel, Hhttp in Hscope. cbn [orb negb] in Hscope.
    destruct (normalizeParsed_fixed u (parse_wf _ _ Eparse) Hscope) as (u' & Hwf' & Hout & Hfix).
    assert (Hx : normalizeMediaUrl x = URL.toString u').
    { unfold normalizeMediaUrl. by rewrite Hne, Hrel, Hhttp, Eparse. }
    rewrite Hx. split.
    + apply trim_graphic. by apply toString_graphic.
    + by rewrite normalize_toString.
  - rewrite !orb_false_r in Hscope.
    destruct (Str.isEmpty (Str.trim x)) eqn:Hne.
    + assert (Hx : normalizeMediaUrl x = EmptyString).
      { unfold normalizeMediaUrl. by rewrite Hne. }
      by rewrite Hx.
    + cbn [orb] in Hscope.
      assert (Hx : normalizeMediaUrl x = Str.trim x).
      { unfold normalizeMediaUrl. by rewrite Hne, Hscope. }
      rewrite Hx. split; [apply trim_idem|].
      unfold normalizeMediaUrl. by rewrite trim_idem, Hne, Hscope.
Qed.

(** X9: saving a weekday's URL settles it.  For an input in the scope in
    which the normalizer is shown idempotent (what passes through, and
    the absolute URLs of the modelled fragment, a Drive file id being
    made of plain query bytes), the value that [setWeeklyMusic] stores
    has no white space around it, and saving the stored value again under
    the same weekday leaves the whole state as it is. *)
Theorem setWeeklyMusic_settles (weekday rawUrl : string) (prev : AppState) :
  idempotentScope rawUrl = true ->
  let s' := setWeeklyMusic weekday rawUrl prev in
  exists stored,
    weeklyMusic (settings s') !! weekday = Some stored
    /\ Str.trim stored = stored
    /\ setWeeklyMusic weekday stored s' = s'.
Proof.
  intros Hscope s'. subst s'.
  set (stored := if Str.isEmpty (Str.trim rawUrl) then EmptyString
                 else normalizeMediaUrl (Str.trim rawUrl)).
  assert (Hs : setWeeklyMusic weekday rawUrl prev
               = mkState (entries prev)
                   (mkSettings (goalWeight (settings prev))
                      (<[weekday := stored]> (weeklyMusic (settings prev)))
                      (templates (settings prev)))) by reflexivity.
  rewrite Hs. cbn [settings weeklyMusic]. rewrite lookup_insert_eq.
  exists stored. split; [reflexivity|].
  assert (Hst : Str.trim stored = stored
                /\ (if Str.isEmpty stored then EmptyString else normalizeMediaUrl stored) = stored).
  { subst stored. destruct (Str.isEmpty (Str.trim rawUrl)) eqn:Hblank; [done|].
    rewrite <- idempotentScope_trim in Hscope.
    destruct (normalize_settled _ Hscope) as [Ht Hn]. split; [exact Ht|]. rewrite Hn.
    by destruct (normalizeMediaUrl (Str.trim rawUrl)). }
  destruct Hst as [Ht Hn]. split; [exact Ht|].
  unfold setWeeklyMusic. cbn [entries settings goalWeight weeklyMusic templates].
  by rewrite Ht, Hn, insert_insert_eq.
Qed.

Lemma setWeeklyMusic_settles_witness :
  let s' := setWeeklyMusic "火" "  https://www.dropbox.com/s/abc/tue.mp3?dl=0 " sampleState in
  exists stored,
    weeklyMusic (settings s') !! "火" = Some stored
    /\ setWeeklyMusic "火" stored s' = s'.
Proof.
  intros s'.
  destruct (setWeeklyMusic_settles "火" "  https://www.dropbox.com/s/abc/tue.mp3?dl=0 " sampleState)
    as (stored & H1 & _ & H3).
  - vm_compute. reflexivity.
  - exists stored. split; [exact H1|exact H3].
Defined.

(** ** The template editor: text and lines *)

Lemma prefix_cons_inv (a c : ascii) (p s : string) :
  String.prefix (String a p) (String c s) = true -> a = c /\ String.prefix p s = true.
Proof. cbn [String.prefix]. by destruct (ascii_dec a c). Qed.

Lemma prefix_cons_same (a : ascii) (p s : string) :
  String.prefix (String a p) (String a s) = String.prefix p s.
Proof. cbn [String.prefix]. by destruct (ascii_dec a a). Qed.

Lemma includes_cons (needle : string) (c : ascii) (s : string) :
  Str.includes needle (String c s) = String.prefix needle (String c s) || Str.includes needle s.
Proof. reflexivity. Qed.

Lemma splitLines_sep (a r : string) :
  Str.includes lineSep a = false ->
  splitLines false (a +:+ lineSep +:+ r) = a :: splitLines true r.
Proof.
  induction a as [|c a IH]; intros Ha.
  - reflexivity.
  - rewrite includes_cons in Ha. apply orb_false_elim in Ha as [Hp Ha].
    rewrite append_cons. cbn [splitLines andb].
    destruct a as [|d a'].
    + change (EmptyString +:+ lineSep +:+ r) with (String "\" (String "n" r)) in *.
      cbv beta iota. change (Ascii.eqb "\" "n") with false. rewrite andb_false_r.
      by rewrite (IH Ha).
    + rewrite append_cons.
      assert (Hcd : Ascii.eqb c "\" && Ascii.eqb d "n" = false).
      { destruct (Ascii.eqb c "\") eqn:Ec; [|done]. destruct (Ascii.eqb d "n") eqn:Ed; [|done].
        apply Ascii.eqb_eq in Ec as ->. apply Ascii.eqb_eq in Ed as ->.
        unfold lineSep in Hp. rewrite prefix_cons_same, prefix_cons_same in Hp. by destruct a'. }
      rewrite Hcd, <- append_cons. by rewrite (IH Ha).
Qed.

Lemma splitLines_whole (a : string) :
  Str.includes lineSep a = false -> splitLines false a = [a].
Proof.
  induction a as [|c a IH]; intros Ha; [done|].
  rewrite includes_cons in Ha. apply orb_false_elim in Ha as [Hp Ha].
  cbn [splitLines andb]. destruct a as [|d a']; [done|].
  assert (Hcd : Ascii.eqb c "\" && Ascii.eqb d "n" = false).
  { destruct (Ascii.eqb c "\") eqn:Ec; [|done]. destruct (Ascii.eqb d "n") eqn:Ed; [|done].
    apply Ascii.eqb_eq in Ec as ->. apply Ascii.eqb_eq in Ed as ->.
    unfold lineSep in Hp. rewrite prefix_cons_same, prefix_cons_same in Hp. by destruct a'. }
  by rewrite Hcd, (IH Ha).
Qed.

Lemma splitLines_skip (r : string) :
  Str.startsWith "n" r = false -> splitLines true r = splitLines false r.
Proof.
  destruct r as [|c r]; [done|]. intros H. cbn [splitLines andb].
  destruct (Ascii.eqb c "n") eqn:E; [|done].
  apply Ascii.eqb_eq in E as ->. unfold Str.startsWith in H. rewrite prefix_cons_same in H.
  by destruct r.
Qed.

(** Further [n]s right after a separator belong to it. *)
Lemma splitLines_swallow (ns r : string) :
  Str.forallb (Ascii.eqb "n") ns = true -> splitLines true (ns +:+ r) = splitLines true r.
Proof.
  induction ns as [|c ns IH]; [done|]. cbn [Str.forallb]. intros [Hc Hns]%andb_prop.
  apply Ascii.eqb_eq in Hc as <-. rewrite append_cons. cbn [splitLines andb]. by apply IH.
Qed.

Lemma cleanLine_parts (line : string) :
  cleanLine line = true ->
  Str.isEmpty line = false /\ Str.startsWith "n" line = false /\ Str.includes lineSep line = false.
Proof.
  unfold cleanLine. intros [[H1 H2]%andb_prop H3]%andb_prop.
  by apply negb_true_iff in H1, H2, H3.
Qed.

Lemma joinLines_cons (a b : string) (l : list string) :
  joinLines (a :: b :: l) = a +:+ lineSep +:+ joinLines (b :: l).
Proof. reflexivity. Qed.

Lemma joinLines_starts (a : string) (l : list string) :
  cleanLine a = true -> Str.startsWith "n" (joinLines (a :: l)) = false.
Proof.
  intros (Hne & Hn & _)%cleanLine_parts. destruct l as [|b l].
  - exact Hn.
  - rewrite joinLines_cons. destruct a as [|c a]; [done|]. rewrite append_cons.
    unfold Str.startsWith in *. cbn [String.prefix] in *.
    destruct (ascii_dec "n" c); [|done]. by destruct a.
Qed.

Lemma splitLines_joinLines (a : string) (l : list string) :
  Forall (fun line => cleanLine line = true) (a :: l) ->
  splitLines false (joinLines (a :: l)) = a :: l.
Proof.
  revert a. induction l as [|b l IH]; intros a Hall.
  - apply splitLines_whole. apply Forall_inv in Hall. by apply cleanLine_parts in Hall as (_ & _ & H).
  - apply Forall_cons in Hall as [Ha Hl]. rewrite joinLines_cons.
    apply cleanLine_parts in Ha as (_ & _ & Ha). rewrite (splitLines_sep _ _ Ha).
    rewrite splitLines_skip by (apply joinLines_starts; by apply Forall_inv in Hl).
    by rewrite (IH b Hl).
Qed.

Lemma filter_nonempty_clean (l : list string) :
  Forall (fun line => cleanLine line = true) l ->
  List.filter (fun piece => negb (Str.isEmpty piece)) l = l.
Proof.
  induction l as [|a l IH]; [done|]. intros [Ha Hl]%Forall_cons. cbn [List.filter].
  apply cleanLine_parts in Ha as (-> & _). cbn [negb]. by rewrite (IH Hl).
Qed.

(** X10: the template editor gives back what it shows.  When every line of
    a weekday's template is non-empty, does not start with the letter n
    and does not contain the separator, re-reading the displayed text
    leaves the settings as they are; and whatever text is typed, no empty
    line is ever stored. *)
Theorem editTemplate_roundtrip (settings : Settings) (day : string) :
  (forall lines, templates settings !! day = Some lines ->
     Forall (fun line => cleanLine line = true) lines ->
     parseLines (templateText settings day) = lines
     /\ editTemplate settings day (templateText settings day) = settings)
  /\ (forall value, exists lines,
        templates (editTemplate settings day value) !! day = Some lines
        /\ Forall (fun line => Str.isEmpty line = false) lines).
Proof.
  split.
  - intros lines Hl Hclean.
    assert (Hparse : parseLines (templateText settings day) = lines).
    { unfold templateText, parseLines. rewrite Hl. cbn [default from_option].
      destruct lines as [|a l]; [done|].
      change (Datatypes.id (a :: l)) with (a :: l).
      rewrite (splitLines_joinLines _ _ Hclean). by apply filter_nonempty_clean. }
    split; [exact Hparse|]. unfold editTemplate, updateList. rewrite Hparse, (insert_id _ _ _ Hl).
    by destruct settings.
  - intros value. unfold editTemplate, updateList, parseLines. cbn [templates].
    rewrite lookup_insert_eq. eexists. split; [reflexivity|].
    apply Forall_forall. intros line Hin. apply list_elem_of_In, filter_In in Hin as [_ Hin].
    by apply negb_true_iff in Hin.
Qed.

Lemma editTemplate_roundtrip_witness :
  editTemplate defaultSettings "水" (templateText defaultSettings "水") = defaultSettings.
Proof.
  refine (proj2 (proj1 (editTemplate_roundtrip defaultSettings "水")
                   ["プランク 20秒×3"; "サイドプランク 各15秒×2"; "キャットカウ"] _ _)).
  - vm_compute. reflexivity.
  - repeat constructor.
Defined.

(** X11: what the editor does not give back.  A line after the first that
    starts with the letter n loses its leading n's when the displayed
    text is read again: they are taken for part of the separator. *)
Theorem editTemplate_swallows_n (settings : Settings) (day : string) (a ns b : string) :
  cleanLine a = true -> cleanLine b = true ->
  Str.isEmpty ns = false -> Str.forallb (Ascii.eqb "n") ns = true ->
  templates settings !! day = Some [a; ns +:+ b] ->
  templates (editTemplate settings day (templateText settings day)) !! day = Some [a; b].
Proof.
  intros Ha Hb Hne Hns Hl. unfold editTemplate, updateList, templateText. cbn [templates].
  rewrite lookup_insert_eq, Hl. f_equal. cbn [default from_option].
  change (Datatypes.id [a; ns +:+ b]) with [a; ns +:+ b]. unfold parseLines.
  rewrite joinLines_cons.
  pose proof (cleanLine_parts a Ha) as (_ & _ & Hsa).
  pose proof (cleanLine_parts b Hb) as (Hnb & Hstb & Hsb).
  rewrite (splitLines_sep _ _ Hsa). change (joinLines [ns +:+ b]) with (ns +:+ b).
  rewrite (splitLines_swallow _ _ Hns), (splitLines_skip _ Hstb), (splitLines_whole _ Hsb).
  apply (filter_nonempty_clean [a; b]). by repeat constructor.
Qed.

Lemma editTemplate_swallows_n_witness :
  templates (editTemplate (updateList defaultSettings "日" ["stretch 10 min"; "nordic walk"]) "日"
               (templateText (updateList defaultSettings "日" ["stretch 10 min"; "nordic walk"]) "日"))
    !! "日" = Some ["stretch 10 min"; "ordic walk"].
Proof.
  apply (editTemplate_swallows_n _ "日" "stretch 10 min" "n" "ordic walk"); reflexivity.
Defined.

(** ** Media URL normalizer: the provider rules in general *)

Lemma get_set (name value : string) (l : URL.Params) :
  URL.get name (URL.set name value l) = Some value.
Proof.
  induction l as [|[n v] l IH]; simpl.
  - by rewrite String.eqb_refl.
  - destruct (String.eqb n name) eqn:E; simpl; by rewrite E.
Qed.

Lemma get_filter_other (name other : string) (l : URL.Params) :
  String.eqb other name = false ->
  URL.get name (List.filter (fun nv => negb (String.eqb (fst nv) other)) l) = URL.get name l.
Proof.
  intros Hne. induction l as [|[n v] l IH]; [done|]. simpl.
  destruct (String.eqb n other) eqn:E; simpl.
  - apply String.eqb_eq in E as ->. by rewrite Hne.
  - by rewrite IH.
Qed.

Lemma get_set_other (name other value : string) (l : URL.Params) :
  String.eqb other name = false -> URL.get name (URL.set other value l) = URL.get name l.
Proof.
  intros Hne. induction l as [|[n v] l IH]; simpl.
  - by rewrite Hne.
  - destruct (String.eqb n other) eqn:E; simpl.
    + apply String.eqb_eq in E as ->. rewrite Hne. by apply get_filter_other.
    + by rewrite IH.
Qed.

(** X12: the Dropbox rule in general.  For every URL of the fragment with a
    Dropbox host, the result is again such a URL with the same host, path
    and fragment; its query has [dl] or [raw]; if it has [dl], then [dl]
    is 1; and every parameter other than [dl] and [raw] reads as before. *)
Theorem normalize_dropbox (x : string) (url : URL.t) :
  URL.parse (Str.trim x) = Some url ->
  Str.includes "dropbox.com" (URL.hostname url) = true ->
  exists url',
    URL.parse (normalizeMediaUrl x) = Some url'
    /\ URL.hostname url' = URL.hostname url
    /\ URL.pathname url' = URL.pathname url
    /\ URL.fragment url' = URL.fragment url
    /\ URL.has "dl" (URL.searchParams url') || URL.has "raw" (URL.searchParams url') = true
    /\ (URL.has "dl" (URL.searchParams url') = true ->
        URL.get "dl" (URL.searchParams url') = Some "1")
    /\ (forall name, String.eqb "dl" name = false -> String.eqb "raw" name = false ->
          URL.get name (URL.searchParams url') = URL.get name (URL.searchParams url)).
Proof.
  intros Eparse Hdb.
  pose proof (parse_absolute _ _ Eparse) as (Hne & Hrel & Hhttp).
  pose proof (parse_wf _ _ Eparse) as Hwf.
  pose proof (searchParams_ascii url Hwf) as Hascii.
  unfold normalizeMediaUrl. rewrite Hne, Hrel, Hhttp, Eparse. cbn [orb negb].
  unfold normalizeParsed. rewrite Hdb.
  destruct (URL.has "dl" (URL.searchParams url)) eqn:Edl;
    [|destruct (URL.has "raw" (URL.searchParams url)) eqn:Eraw]; cbn [negb].
  - destruct (wf_updateQuery url (URL.set "dl" "1" (URL.searchParams url)) Hwf)
      as [Hwf' Hsp]; [apply set_not_nil|by apply set_ascii|].
    eexists. split; [by apply parse_toString|]. rewrite Hsp.
    do 3 (split; [reflexivity|]). rewrite has_set. split; [done|]. split.
    + intros _. apply get_set.
    + intros name Hn _. by apply get_set_other.
  - exists url. split; [by apply parse_toString|]. do 3 (split; [reflexivity|]).
    rewrite Edl, Eraw. split; [done|]. split; [done|]. done.
  - destruct (wf_updateQuery url (URL.set "raw" "1" (URL.searchParams url)) Hwf)
      as [Hwf' Hsp]; [apply set_not_nil|by apply set_ascii|].
    eexists. split; [by apply parse_toString|]. rewrite Hsp.
    do 3 (split; [reflexivity|]). rewrite has_set, orb_true_r. split; [done|]. split.
    + rewrite has_set_other by reflexivity. by rewrite Edl.
    + intros name _ Hn. by apply get_set_other.
Qed.

Lemma normalize_dropbox_witness :
  exists url',
    URL.parse (normalizeMediaUrl "https://www.dropbox.com/s/abc/mon.mp3?rlkey=k1&dl=0") = Some url'
    /\ URL.has "dl" (URL.searchParams url') || URL.has "raw" (URL.searchParams url') = true
    /\ URL.get "rlkey" (URL.searchParams url') = Some "k1".
Proof.
  destruct (normalize_dropbox "https://www.dropbox.com/s/abc/mon.mp3?rlkey=k1&dl=0"
              (URL.mk "https" "www.dropbox.com" "/s/abc/mon.mp3" (Some "rlkey=k1&dl=0") None))
    as (url' & Hp & _ & _ & _ & Hor & _ & Hother).
  - vm_compute. reflexivity.
  - vm_compute. reflexivity.
  - exists url'. split; [exact Hp|]. split; [exact Hor|].
    rewrite Hother by reflexivity. vm_compute. reflexivity.
Defined.

Lemma break_parts (stop : ascii -> bool) (s a b : string) :
  Str.break stop s = (a, b) ->
  s = a +:+ b /\ Str.forallb (fun c => negb (stop c)) a = true
  /\ match b with EmptyString => True | String c _ => stop c = true end.
Proof.
  revert a b. induction s as [|c s IH]; intros a b; cbn [Str.break].
  - by intros [= <- <-].
  - destruct (stop c) eqn:Ec.
    + intros [= <- <-]. by rewrite Ec.
    + destruct (Str.break stop s) as [a' b']. intros [= <- <-].
      destruct (IH a' b' eq_refl) as (-> & Ha & Hb). rewrite append_cons. cbn [Str.forallb].
      by rewrite Ec, Ha.
Qed.

Lemma startsWith_app (p x : string) : Str.startsWith p (p +:+ x) = true.
Proof.
  unfold Str.startsWith. induction p as [|c p IH]; [by destruct x|].
  rewrite append_cons. by rewrite prefix_cons_same.
Qed.

Lemma fileDHere_prefix (rest : string) :
  fileDHere ("/file/d/" +:+ rest)
  = (let '(seg, _) := Str.break (Ascii.eqb "/") rest in
     if Str.isEmpty seg then None else Some seg).
Proof. unfold fileDHere. by rewrite startsWith_app. Qed.

Lemma startsWith_split (p s : string) :
  Str.startsWith p s = true -> s = p +:+ Str.drop (String.length p) s.
Proof.
  unfold Str.startsWith. revert s. induction p as [|a p IH]; intros s H.
  - by destruct s.
  - destruct s as [|c s]; [done|]. apply prefix_cons_inv in H as [-> H].
    rewrite append_cons. cbn [String.length Str.drop]. by rewrite <- (IH s H).
Qed.

Lemma fileDHere_none (s : string) (c : ascii) (rest : string) :
  fileDHere s = None -> c <> "/"%char -> s <> "/file/d/" +:+ String c rest.
Proof.
  intros E Hc ->. rewrite fileDHere_prefix in E. cbn [Str.break] in E.
  destruct (Ascii.eqb "/" c) eqn:Ec.
  - apply Ascii.eqb_eq in Ec. congruence.
  - by destruct (Str.break (Ascii.eqb "/") rest).
Qed.

(** X13: what the Drive path rule extracts.  A capture is never empty and
    has no slash; it stands in the path right after [/file/d/] and runs
    up to the next slash or the end; and it is taken at the leftmost
    place of the path where [/file/d/] is followed by a character other
    than a slash.  There is no capture exactly when the path has no such
    place. *)
Theorem matchFileD_capture (path : string) :
  (forall seg, matchFileD path = Some seg ->
     Str.isEmpty seg = false
     /\ Str.forallb (fun c => negb (Ascii.eqb "/" c)) seg = true
     /\ exists pre rest, path = pre +:+ "/file/d/" +:+ seg +:+ rest
          /\ match rest with EmptyString => True | String c _ => c = "/"%char end
          /\ forall pre' c rest', c <> "/"%char ->
               path = pre' +:+ "/file/d/" +:+ String c rest' ->
               String.length pre <= String.length pre')
  /\ (matchFileD path = None ->
      forall pre c rest, c <> "/"%char -> path <> pre +:+ "/file/d/" +:+ String c rest).
Proof.
  split.
  - intros seg. induction path as [|x path IH]; cbn [matchFileD].
    + by change (fileDHere EmptyString) with (@None string).
    + destruct (fileDHere (String x path)) as [seg'|] eqn:E.
      * intros [= ->]. unfold fileDHere in E.
        destruct (Str.startsWith "/file/d/" (String x path)) eqn:Es; [|done].
        apply startsWith_split in Es. cbn [String.length] in Es.
        destruct (Str.break (Ascii.eqb "/") (Str.drop 8 (String x path))) as [a b] eqn:Eb.
        destruct (Str.isEmpty a) eqn:Ea; [done|]. injection E as ->.
        apply break_parts in Eb as (Hd & Hseg & Hb). split; [done|]. split; [done|].
        exists EmptyString, b. rewrite append_nil_l, <- Hd. split; [exact Es|]. split.
        -- destruct b as [|c b]; [done|]. by apply Ascii.eqb_eq in Hb.
        -- intros pre' c rest' _ _. cbn [String.length]. lia.
      * intros H. destruct (IH H) as (H1 & H2 & pre & rest & -> & Hr & Hleft).
        split; [done|]. split; [done|]. exists (String x pre), rest.
        split; [done|]. split; [done|].
        intros pre' c rest' Hc Heq. destruct pre' as [|y pre'].
        -- rewrite append_nil_l in Heq. by destruct (fileDHere_none _ c rest' E Hc).
        -- rewrite append_cons in Heq. injection Heq as _ Heq.
           cbn [String.length]. apply le_n_S. by apply (Hleft pre' c rest').
  - induction path as [|x path IH]; cbn [matchFileD]; intros Hnone pre c rest Hc Heq.
    + destruct pre; discriminate Heq.
    + destruct (fileDHere (String x path)) as [seg|] eqn:E; [done|].
      destruct pre as [|y pre].
      * rewrite append_nil_l in Heq. by destruct (fileDHere_none _ c rest E Hc).
      * rewrite append_cons in Heq. injection Heq as _ Heq. by apply (IH Hnone pre c rest).
Qed.

Lemma matchFileD_capture_witness :
  exists pre rest,
    "/u/0/file/d/X/file/d/Y/view" = pre +:+ "/file/d/" +:+ "X" +:+ rest
    /\ String.length pre <= 4.
Proof.
  destruct (proj1 (matchFileD_capture "/u/0/file/d/X/file/d/Y/view") "X")
    as (_ & _ & pre & rest & H & _ & Hleft).
  - vm_compute. reflexivity.
  - exists pre, rest. split; [exact H|].
    apply (Hleft "/u/0" "X"%char "/file/d/Y/view"); [discriminate|reflexivity].
Defined.

(** ** Entry factory: identifiers within one entry *)

(** X14: within one entry the identifiers are pairwise distinct and each
    starts with the date and a dash, whatever the clock and the random
    source answer. *)
Theorem buildEntry_ids_distinct (getDay : string -> option nat) (d : string) (s : Settings) (w : World) :
  let ids := map id (checklist (fst (buildEntry getDay d s w))) in
  NoDup ids /\ Forall (fun i => Str.startsWith (d +:+ "-") i = true) ids.
Proof.
  intros ids. subst ids. split.
  - rewrite buildEntry_eq. cbn [fst checklist].
    apply NoDup_alt. intros i j x Hi Hj.
    rewrite list_lookup_fmap in Hi, Hj.
    destruct (imap _ _ !! i) as [ci|] eqn:Ei; [|done].
    destruct (imap _ _ !! j) as [cj|] eqn:Ej; [|done].
    rewrite list_lookup_imap in Ei, Ej.
    destruct (_ !! i) as [ti|]; [|done]. destruct (_ !! j) as [tj|]; [|done].
    simpl in *. simplify_eq. simpl in *.
    by apply itemId_inj in Hi as (-> & _).
  - rewrite buildEntry_eq. cbn [fst checklist]. apply Forall_forall. intros i Hi.
    apply list_elem_of_fmap in Hi as (c & -> & Hc).
    apply elem_of_lookup_imap in Hc as (k & t & -> & _). cbn [id].
    unfold itemId. rewrite <- append_assoc. apply startsWith_app.
Qed.

(** X15: the default templates cover the week.  With the default settings
    every date that falls on a weekday gets a checklist of two or three
    items: each label that [weekdayStr] can give is a key of the default
    templates. *)
Theorem default_checklist_nonempty (getDay : string -> option nat) (d : string) (w : World) (n : nat) :
  getDay d = Some n -> n < 7 ->
  2 <= length (checklist (fst (buildEntry getDay d defaultSettings w))) <= 3.
Proof.
  intros Hd Hn. rewrite <- (length_map text), buildEntry_texts. unfold weekdayStr. rewrite Hd.
  do 7 (destruct n as [|n]; [vm_compute; lia|]). lia.
Qed.

Lemma default_checklist_nonempty_witness :
  2 <= length (checklist (fst (buildEntry Calendar.getDay "2025-09-13" defaultSettings stillWorld))) <= 3.
Proof.
  apply (default_checklist_nonempty Calendar.getDay "2025-09-13" stillWorld 6).
  - vm_compute. reflexivity.
  - lia.
Defined.

(** ** Azure: container and blob *)

Lemma concat_cons (sep x : string) (xs : list string) :
  String.concat sep (x :: xs)
  = match xs with [] => x | _ :: _ => x +:+ sep +:+ String.concat sep xs end.
Proof. by destruct xs. Qed.

Lemma concat_split (s : string) : String.concat "/" (Str.split "/" s) = s.
Proof.
  induction s as [|c s IH]; [done|]. cbn [Str.split].
  destruct (Str.split "/" s) as [|piece pieces] eqn:E; [by apply split_not_nil in E|].
  destruct (Ascii.eqb c "/") eqn:Ec.
  - apply Ascii.eqb_eq in Ec as ->. rewrite concat_cons, IH. reflexivity.
  - rewrite concat_cons. rewrite concat_cons in IH.
    destruct pieces; rewrite ?append_cons; by rewrite <- IH.
Qed.

Lemma split_head_nosep (s : string) :
  Str.forallb (fun c => negb (Ascii.eqb c "/")) (hd EmptyString (Str.split "/" s)) = true.
Proof.
  induction s as [|c s IH]; [done|]. cbn [Str.split].
  destruct (Str.split "/" s) as [|piece pieces]; [done|].
  destruct (Ascii.eqb c "/") eqn:Ec; [done|]. cbn [hd Str.forallb] in *. by rewrite Ec, IH.
Qed.

(** X16: container and blob recompose the path.  For a URL of the
    modelled fragment, that is, one on which [URL.parse] succeeds,
    [parseAzureUrl] answers a record whose container has no slash; the
    path without its leading slashes is the container alone, with an
    empty blob, when it has no slash, and container, slash, blob
    otherwise; [hasBlob] says whether the blob is non-empty; and the
    clock is read only when an [se] parameter is there. *)
Theorem parseAzureUrl_path (Date_parse : string -> option Z) (u : string) (url : URL.t) (w : World) :
  URL.parse u = Some url ->
  exists info,
    fst (parseAzureUrl Date_parse u w) = Some info
    /\ Str.forallb (fun c => negb (Ascii.eqb c "/")) (container info) = true
    /\ (stripSlashes (URL.pathname url) = container info /\ blob info = EmptyString
        \/ stripSlashes (URL.pathname url) = container info +:+ "/" +:+ blob info)
    /\ hasBlob info = negb (Str.isEmpty (blob info))
    /\ hasSig info = URL.has "sig" (URL.searchParams url)
    /\ se info = URL.get "se" (URL.searchParams url)
    /\ (se info = None -> snd (parseAzureUrl Date_parse u w) = w).
Proof.
  intros Hp. unfold parseAzureUrl. rewrite Hp.
  set (p := stripSlashes (URL.pathname url)).
  pose proof (split_head_nosep p) as Hhead. pose proof (concat_split p) as Hcat.
  assert (Hpath : p = hd EmptyString (Str.split "/" p) /\ String.concat "/" (tl (Str.split "/" p)) = EmptyString
                  \/ p = hd EmptyString (Str.split "/" p) +:+ "/" +:+ String.concat "/" (tl (Str.split "/" p))).
  { destruct (Str.split "/" p) as [|piece pieces] eqn:E; [by apply split_not_nil in E|].
    rewrite concat_cons in Hcat. cbn [hd tl]. destruct pieces; [by left|by right]. }
  unfold bind, ret.
  destruct (URL.get "se" (URL.searchParams url)) as [s|] eqn:Ese.
  - destruct (Str.isEmpty s); [|destruct (Date_parse s)]; cbn [fst snd];
      eexists; (split; [reflexivity|]); cbn [container blob hasBlob hasSig se]; by repeat split.
  - cbn [fst snd]. eexists. split; [reflexivity|].
    cbn [container blob hasBlob hasSig se]. by repeat split.
Qed.

Lemma parseAzureUrl_path_witness :
  exists info,
    fst (parseAzureUrl (fun _ => Some 4102444800000%Z)
           "https://acnt.blob.core.windows.net/audio/mon.mp3?sp=r&se=2100-01-01&sig=XYZ" stillWorld)
    = Some info
    /\ container info = "audio" /\ blob info = "mon.mp3" /\ hasBlob info = true
    /\ hasSig info = true /\ seExpired info = false.
Proof.
  destruct (parseAzureUrl_path (fun _ => Some 4102444800000%Z)
              "https://acnt.blob.core.windows.net/audio/mon.mp3?sp=r&se=2100-01-01&sig=XYZ"
              (URL.mk "https" "acnt.blob.core.windows.net" "/audio/mon.mp3"
                      (Some "sp=r&se=2100-01-01&sig=XYZ") None) stillWorld)
    as (info & H & _); [vm_compute; reflexivity|].
  exists info. split; [exact H|]. revert H. vm_compute. intros [= <-]. by repeat split.
Defined.

(** ** The diagnosis: requests and verdict *)

Lemma trim_keeps_head (c : ascii) (s : string) :
  Str.ws1 c = false -> (forall c2, Str.ws2 c c2 = false) -> (forall c2 c3, Str.ws3 c c2 c3 = false) ->
  exists s', Str.trim (String c s) = String c s'.
Proof.
  intros H1 H2 H3.
  assert (Hfix : Str.trimStart (String c s) = String c s).
  { cbn [Str.trimStart]. rewrite H1. destruct s as [|c2 [|c3 s]]; [done|by rewrite H2|by rewrite H2, H3]. }
  unfold Str.trim. rewrite Hfix. cbn [Str.trimEnd]. unfold Str.blank. rewrite Hfix. by eexists.
Qed.

Lemma trim_not_OK (c : ascii) (rest t : string) :
  t = String c rest ->
  Str.ws1 c = false -> (forall c2, Str.ws2 c c2 = false) -> (forall c2 c3, Str.ws3 c c2 c3 = false) ->
  Ascii.eqb "O" c = false ->
  Str.startsWith "OK:" (Str.trim t) = false.
Proof.
  intros -> H1 H2 H3 Hc. destruct (trim_keeps_head c rest H1 H2 H3) as [s' ->].
  unfold Str.startsWith. cbn [String.prefix]. destruct (ascii_dec "O" c) as [<-|]; [done|done].
Qed.

Ltac not_OK H :=
  match type of H with
  | _ (Str.trim ?t) = true =>
      erewrite (trim_not_OK _ _ t) in H; [discriminate H|reflexivity..]
  end.

Lemma diagnoseResponse_verdict (Date_parse : string -> option Z) (url : string) (res : Response) (w : World) :
  let msg := fst (diagnoseResponse Date_parse url res w) in
  (ok res = true -> audioRe (default EmptyString (contentType res)) = true ->
   msg = "OK: Content-Type=" +:+ default EmptyString (contentType res))
  /\ (Str.startsWith "OK:" msg = true ->
      ok res = true /\ audioRe (default EmptyString (contentType res)) = true).
Proof.
  intros msg. subst msg. unfold diagnoseResponse, bind, ret.
  destruct (if isAzureBlob url then _ else _) as [extra w1].
  destruct (ok res); cbn [negb fst].
  - destruct (audioRe (default EmptyString (contentType res))); cbn [negb fst]; [done|].
    split; [done|]. intros H. not_OK H.
  - split; [done|]. intros H. not_OK H.
Qed.

Lemma diagnoseFailed_not_OK (url : string) : Str.startsWith "OK:" (diagnoseFailed url) = false.
Proof.
  unfold diagnoseFailed. destruct (Str.startsWith "OK:" (Str.trim _)) eqn:H; [|done]. not_OK H.
Qed.

(** X17: the requests of a diagnosis.  No request is made without a URL or,
    on an https page, for a URL that starts with [http:] (and then the
    clock is not read either); otherwise HEAD goes first, and GET follows
    exactly when HEAD was rejected or answered a status outside 200..299.
    What the responses contain has no influence on the requests. *)
Theorem diagnose_requests (Date_parse : string -> option Z) (url pageProtocol : option string)
    (head get : option Response) (w : World) :
  let run := diagnose Date_parse url pageProtocol head get w in
  (notFetched url pageProtocol = true -> fst (fst run) = [] /\ snd run = w)
  /\ (notFetched url pageProtocol = false ->
      fst (fst run)
      = match head with
        | Some res => if ok res then [HEAD] else [HEAD; GET]
        | None => [HEAD; GET]
        end).
Proof.
  intros run. subst run. unfold diagnose, notFetched.
  destruct url as [u|]; [|by split].
  destruct (Str.isEmpty u); [by split|]. cbn [orb].
  destruct (_ && Str.startsWith "http:" u); [by split|].
  split; [done|]. intros _. unfold bind, ret.
  destruct head as [res|]; [destruct (ok res)|];
    try (destruct get as [res'|]); try done;
    by match goal with |- context [diagnoseResponse ?a ?b ?c ?d] =>
         destruct (diagnoseResponse a b c d) end.
Qed.

Lemma diagnose_requests_witness :
  fst (fst (diagnose (fun _ => None) (Some "http://example.com/t.mp3") (Some "https:")
                     (Some (mkResponse 200 "OK" (Some "audio/mpeg"))) None stillWorld)) = []
  /\ fst (fst (diagnose (fun _ => None) (Some "https://example.com/t.mp3") (Some "https:")
                        (Some (mkResponse 405 "Method Not Allowed" None))
                        (Some (mkResponse 200 "OK" (Some "audio/mpeg"))) stillWorld)) = [HEAD; GET].
Proof.
  split.
  - apply (proj1 (diagnose_requests (fun _ => None) (Some "http://example.com/t.mp3") (Some "https:")
                    (Some (mkResponse 200 "OK" (Some "audio/mpeg"))) None stillWorld)).
    reflexivity.
  - apply (proj2 (diagnose_requests (fun _ => None) (Some "https://example.com/t.mp3") (Some "https:")
                    (Some (mkResponse 405 "Method Not Allowed" None))
                    (Some (mkResponse 200 "OK" (Some "audio/mpeg"))) stillWorld)).
    reflexivity.
Defined.

(** X18: the verdict of a diagnosis.  The last message is
    [OK: Content-Type=...] when the judged response (HEAD's if its status
    is 200..299, else GET's) has a status 200..299 and a content type
    that starts with [audio/] in any letter case; and a last message that
    starts with [OK:] is shown in no other case. *)
Theorem diagnose_verdict (Date_parse : string -> option Z) (url pageProtocol : option string)
    (head get : option Response) (w : World) :
  let msgs := snd (fst (diagnose Date_parse url pageProtocol head get w)) in
  (forall res,
     notFetched url pageProtocol = false -> judged head get = Some res ->
     ok res = true -> audioRe (default EmptyString (contentType res)) = true ->
     List.last msgs EmptyString = "OK: Content-Type=" +:+ default EmptyString (contentType res))
  /\ (Str.startsWith "OK:" (List.last msgs EmptyString) = true ->
      notFetched url pageProtocol = false
      /\ exists res, judged head get = Some res /\ ok res = true
                     /\ audioRe (default EmptyString (contentType res)) = true).
Proof.
  intros msgs. subst msgs. unfold diagnose, notFetched, judged.
  destruct url as [u|]; [|by split].
  destruct (Str.isEmpty u); [by split|]. cbn [orb].
  destruct (_ && Str.startsWith "http:" u); [by split|].
  unfold bind, ret.
  assert (Hres : forall res w',
    (forall res0, false = false -> Some res = Some res0 -> ok res0 = true ->
       audioRe (default EmptyString (contentType res0)) = true ->
       fst (diagnoseResponse Date_parse u res w')
       = "OK: Content-Type=" +:+ default EmptyString (contentType res0))
    /\ (Str.startsWith "OK:" (fst (diagnoseResponse Date_parse u res w')) = true ->
        false = false /\ exists res0, Some res = Some res0 /\ ok res0 = true
                        /\ audioRe (default EmptyString (contentType res0)) = true)).
  { intros res w'. destruct (diagnoseResponse_verdict Date_parse u res w') as [Ha Hb]. split.
    - intros res0 _ [= <-]. exact Ha.
    - intros H. split; [done|]. exists res. split; [done|]. by apply Hb. }
  assert (Hfail : (forall res0 : Response, false = false -> None = Some res0 -> ok res0 = true ->
       audioRe (default EmptyString (contentType res0)) = true ->
       diagnoseFailed u = "OK: Content-Type=" +:+ default EmptyString (contentType res0))
    /\ (Str.startsWith "OK:" (diagnoseFailed u) = true ->
        false = false /\ exists res0, None = Some res0 /\ ok res0 = true
                        /\ audioRe (default EmptyString (contentType res0)) = true)).
  { split; [done|]. by rewrite diagnoseFailed_not_OK. }
  destruct head as [res|]; [destruct (ok res) eqn:Eok|].
  - specialize (Hres res w). by destruct (diagnoseResponse Date_parse u res w).
  - destruct get as [res'|]; [|exact Hfail].
    specialize (Hres res' w). by destruct (diagnoseResponse Date_parse u res' w).
  - destruct get as [res'|]; [|exact Hfail].
    specialize (Hres res' w). by destruct (diagnoseResponse Date_parse u res' w).
Qed.

Lemma diagnose_verdict_witness :
  List.last (snd (fst (diagnose (fun _ => None) (Some "https://example.com/t.mp3") (Some "https:")
                                (Some (mkResponse 405 "Method Not Allowed" None))
                                (Some (mkResponse 200 "OK" (Some "Audio/MPEG"))) stillWorld)))
            EmptyString
  = "OK: Content-Type=Audio/MPEG".
Proof.
  apply (proj1 (diagnose_verdict (fun _ => None) (Some "https://example.com/t.mp3") (Some "https:")
                  (Some (mkResponse 405 "Method Not Allowed" None))
                  (Some (mkResponse 200 "OK" (Some "Audio/MPEG"))) stillWorld)
               (mkResponse 200 "OK" (Some "Audio/MPEG"))); reflexivity.
Defined.
